(** * Text-to-SQL notebook (mda_text_to_sql_langchain_bedrock.ipynb)

    A shallow embedding of the notebook's own code: the crawler cell
    (code cell 7), the catalog harvester [parse_catalog] (code cell 9),
    the channel router [identify_channel] (code cell 10) and the query
    executor [run_query] (code cell 11).

    Everything the notebook delegates to a client library (AWS Glue, the
    Bedrock model behind LangChain's LLMChain, the SQLDatabaseChain) is an
    oracle of the environment [Env]: a function of the state of the outside
    world that yields a value or raises, and moves the world on. *)

From stdpp Require Import base option list strings gmap.

Local Open Scope string_scope.
Local Open Scope list_scope.

(** ** Python outcomes *)

(** The exceptions the notebook's code can end in.  [Exception_ msg] is the
    plain [Exception(msg)] the notebook raises itself; [KeyError],
    [NameError] and [UnboundLocalError] are raised by the interpreter;
    [LibraryError] stands for whatever a client library raises. *)
Inductive PyExc : Type :=
| Exception_ (msg : string)
| KeyError (key : string)
| NameError (name : string)
| UnboundLocalError (name : string)
| LibraryError (cls msg : string).

Inductive Result (A : Type) : Type :=
| Return (a : A)
| Raise (e : PyExc).
Arguments Return {A} a.
Arguments Raise {A} e.

Inductive Progress (A : Type) : Type :=
| Finished (r : Result A)
| StillRunning.
Arguments Finished {A} r.
Arguments StillRunning {A}.

(** What a cell leaves behind on the terminal and the clock. *)
Inductive Effect : Type :=
| Print (line : string)
| Sleep (seconds : nat).

(** ** Strings *)

Definition nl : string := String (Ascii.ascii_of_nat 10) EmptyString.

(** Python's [needle in hay] on [str]: [needle] starts at some position. *)
Fixpoint str_in (needle hay : string) : bool :=
  String.prefix needle hay ||
  match hay with
  | EmptyString => false
  | String _ hay' => str_in needle hay'
  end.

(** Python's [hay.startswith(needle)]. *)
Definition startswith (hay needle : string) : bool := String.prefix needle hay.

(** [hay] contains [needle] as a substring. *)
Definition Substring (needle hay : string) : Prop :=
  exists pre post, hay = pre +:+ needle +:+ post.

(** ** AWS Glue responses, as the dicts boto3 hands back

    A key the service leaves out is a key missing from the dict, so every
    field the code subscripts is optional here and the subscript raises
    [KeyError] on [None]. *)
Record Column : Type := mkColumn { col_Name : option string }.

Record StorageDescriptor : Type := mkStorageDescriptor {
  sd_Location : option string;
  sd_Columns : option (list Column)
}.

Record Table : Type := mkTable {
  tbl_DatabaseName : option string;
  tbl_Name : option string;
  tbl_StorageDescriptor : option StorageDescriptor;
  tbl_Parameters : option (gmap string string)
}.

Record GetTablesResponse : Type := mkGetTablesResponse {
  TableList : option (list Table)
}.

Record Crawler : Type := mkCrawler { State : option string }.

Record GetCrawlerResponse : Type := mkGetCrawlerResponse {
  Crawler_ : option Crawler
}.

(** ** The environment *)

Record Env (World DbHandle : Type) : Type := mkEnv {
  (* names bound by the set-up cells 5 and 8 *)
  glue_crawler_name : string;
  gdc : list string;
  dbathena : DbHandle;
  (* client.start_crawler(Name=...) *)
  start_crawler : string -> World -> Result unit * World;
  (* client.get_crawler(Name=...) *)
  get_crawler : string -> World -> Result GetCrawlerResponse * World;
  (* time.sleep(seconds): the world moves on while the cell waits *)
  time_sleep : nat -> World -> World;
  (* glue_client.get_tables(DatabaseName=...) *)
  get_tables : string -> World -> Result GetTablesResponse * World;
  (* LLMChain(prompt=PromptTemplate(template, ["query"]), llm=llm).run(query) *)
  LLMChain_run : string -> string -> World -> Result string * World;
  (* SQLDatabaseChain.from_llm(llm, db, prompt=PromptTemplate(template),
       verbose=True, return_intermediate_steps=False).run(query): what the
     call yields, the lines the verbose chain prints on the way, and the
     world it leaves *)
  SQLDatabaseChain_run :
    DbHandle -> string -> string -> World -> Result string * list string * World
}.
Arguments glue_crawler_name {World DbHandle} e.
Arguments gdc {World DbHandle} e.
Arguments dbathena {World DbHandle} e.
Arguments start_crawler {World DbHandle} e _ _.
Arguments get_crawler {World DbHandle} e _ _.
Arguments time_sleep {World DbHandle} e _ _.
Arguments get_tables {World DbHandle} e _ _.
Arguments LLMChain_run {World DbHandle} e _ _ _.
Arguments SQLDatabaseChain_run {World DbHandle} e _ _ _ _.

(** ** The session *)

(** The notebook's own mutable state: the global [glue_catalog] (unbound
    until code cell 9 has run), what has been printed and slept so far, and
    the state of the outside world. *)
Record Session (World : Type) : Type := mkSession {
  glue_catalog : option string;
  effects : list Effect;
  world : World
}.
Arguments mkSession {World} _ _ _.
Arguments glue_catalog {World} s.
Arguments effects {World} s.
Arguments world {World} s.

Section Notebook.
Context {World DbHandle : Type}.
Variable env : Env World DbHandle.

(** A statement or expression: runs in a session, yields a value or
    raises, and leaves a session behind either way. *)
Definition M (A : Type) : Type := Session World -> Result A * Session World.

#[global] Instance M_ret : MRet M := fun A a st => (Return a, st).

#[global] Instance M_bind : MBind M := fun A B k m st =>
  match m st with
  | (Return a, st') => k a st'
  | (Raise e, st') => (Raise e, st')
  end.

Definition raise {A : Type} (e : PyExc) : M A := fun st => (Raise e, st).

Definition print (line : string) : M unit := fun st =>
  (Return (), mkSession (glue_catalog st) (effects st ++ [Print line]) (world st)).

Definition sleep (seconds : nat) : M unit := fun st =>
  (Return (), mkSession (glue_catalog st) (effects st ++ [Sleep seconds])
                        (time_sleep env seconds (world st))).

(** A call into a client library. *)
Definition call {A : Type} (f : World -> Result A * World) : M A := fun st =>
  let '(r, w) := f (world st) in
  (r, mkSession (glue_catalog st) (effects st) w).

(** A call into a client library that prints while it runs: the lines
    reach the terminal whether the call returns or raises. *)
Definition call_verbose {A : Type} (f : World -> Result A * list string * World)
    : M A := fun st =>
  let '(r, printed, w) := f (world st) in
  (r, mkSession (glue_catalog st) (effects st ++ map Print printed) w).

(** [d[key]] on a dict whose entry may be missing. *)
Definition subscript {A : Type} (key : string) (entry : option A) : M A :=
  match entry with
  | Some v => mret v
  | None => raise (KeyError key)
  end.

(** Reading a local variable that an earlier branch may not have bound. *)
Definition load_fast {A : Type} (name : string) (slot : option A) : M A :=
  match slot with
  | Some v => mret v
  | None => raise (UnboundLocalError name)
  end.

(** Reading and binding the global [glue_catalog]. *)
Definition load_glue_catalog : M string := fun st =>
  match glue_catalog st with
  | Some v => (Return v, st)
  | None => (Raise (NameError "glue_catalog"), st)
  end.

Definition store_glue_catalog (v : string) : M unit := fun st =>
  (Return (), mkSession (Some v) (effects st) (world st)).

(** *** Code cell 10: the channel router *)

Definition prompt_template_titan (catalog : string) : string :=
  "You are a SQL expert. Convert the below natural language question into a valid SQL statement. The schema has the structure below:" +:+ nl +:+ nl +:+
  "     " +:+ catalog +:+ " " +:+ nl +:+
  "     " +:+ nl +:+ nl +:+
  "     Here is the question to be answered:" +:+ nl +:+ nl +:+
  "     {query}" +:+ nl +:+
  "     " +:+ nl +:+ nl +:+
  "     Provide the SQL query that would retrieve the data based on the natural language request." +:+ nl +:+ nl +:+
  "     " +:+ nl +:+
  "     ".

(** [channel] and [db] are locals of the function: each branch of the
    [if] leaves behind the slots it has bound, and [return channel, db]
    reads both. *)
Definition identify_channel (query : string) : M (string * DbHandle) :=
  catalog ← load_glue_catalog;
  let prompt_template := prompt_template_titan catalog in
  generated_texts ← call (LLMChain_run env prompt_template query);
  '(channel, db) ←
    (if str_in "s3" generated_texts then
       _ ← print "SET database to athena";
       mret (Some "db", Some (dbathena env))
     else if str_in "api" generated_texts then
       _ ← print "SET database to weather api";
       mret (Some "api", None)
     else
       raise (Exception_ "User question cannot be answered by any of the channels mentioned in the catalog"));
  channel ← load_fast "channel" channel;
  db ← load_fast "db" db;
  mret (channel, db).

(** *** Code cell 11: the query executor *)

Definition _DEFAULT_TEMPLATE : string :=
  nl +:+
  "    Here is a schema of a table:" +:+ nl +:+
  "    <schema>" +:+ nl +:+
  "    {table_info}" +:+ nl +:+
  "    </schema>       " +:+ nl +:+
  "    Run a SQL query to answer the question. Follow this format:" +:+ nl +:+
  "    " +:+ nl +:+
  "    SQLQuery: the correct SQL query. For example: select count ( * )  from s3_library_data where genre = 'Novel'" +:+ nl +:+
  "    SQLResult: the result of the SQL query." +:+ nl +:+
  "    Answer: convert the SQLResult to a grammatically correct sentence." +:+ nl +:+
  "    " +:+ nl +:+
  "    Here is question: {input}".

(** The statements of [run_query] that follow the call of
    [identify_channel], as a function of the pair that call returned. *)
Definition run_query_dispatch (query channel : string) (db : DbHandle) : M string :=
  if decide (channel = "db") then
    response ← call_verbose (SQLDatabaseChain_run env db _DEFAULT_TEMPLATE query);
    mret response
  else
    raise (Exception_ "Unlisted channel. Check your unified catalog").

Definition run_query (query : string) : M string :=
  '(channel, db) ← identify_channel query;
  run_query_dispatch query channel db.

(** *** Code cell 9: the catalog harvester *)

(** [for x in items: acc = body(x, acc)] *)
Fixpoint for_in {A Acc : Type} (items : list A) (body : A -> Acc -> M Acc)
    (acc : Acc) : M Acc :=
  match items with
  | [] => mret acc
  | x :: rest => acc' ← body x acc; for_in rest body acc'
  end.

Definition parse_catalog : M string :=
  let columns_str := "database|table|column_name" in
  columns_str ← for_in (gdc env) (fun db columns_str =>
    response ← call (get_tables env db);
    table_list ← subscript "TableList" (TableList response);
    for_in table_list (fun tables columns_str =>
      sd ← subscript "StorageDescriptor" (tbl_StorageDescriptor tables);
      location ← subscript "Location" (sd_Location sd);
      classification ←
        (if startswith location "s3" then mret "s3"
         else
           parameters ← subscript "Parameters" (tbl_Parameters tables);
           subscript "classification" (parameters !! "classification"));
      sd ← subscript "StorageDescriptor" (tbl_StorageDescriptor tables);
      column_list ← subscript "Columns" (sd_Columns sd);
      for_in column_list (fun columns columns_str =>
        dbname ← subscript "DatabaseName" (tbl_DatabaseName tables);
        tblname ← subscript "Name" (tbl_Name tables);
        colname ← subscript "Name" (col_Name columns);
        mret (columns_str +:+ (nl +:+ dbname +:+ "|" +:+ tblname +:+ "|" +:+ colname)))
        columns_str)
      columns_str)
    columns_str;
  mret columns_str.

(** [glue_catalog = parse_catalog()] followed by [print(glue_catalog)]. *)
Definition cell_9 : M unit :=
  value ← parse_catalog;
  _ ← store_glue_catalog value;
  catalog ← load_glue_catalog;
  print catalog.

(** *** Code cells 12 and DIY: one question each *)

Definition ask (query : string) : M unit :=
  response ← run_query query;
  _ ← print "----------------------------------------------------------------------";
  print ("SQL and response from user query " +:+ query +:+ "  " +:+ nl +:+ "  " +:+ response).

Definition cell_12 : M unit :=
  ask "How many total books are there in the library?".

Definition cell_DIY : M unit :=
  ask "What is the average price of a car in the database?".

(** *** Code cell 7: starting the crawler and waiting for it *)

(** A cell with a [while True] loop in it is run on a budget of loop
    iterations: [StillRunning] is a run that has used the budget up and is
    about to start another iteration in the session it comes with. *)
Definition Run (A : Type) : Type := Session World -> Progress A * Session World.

Definition lift {A : Type} (m : M A) : Run A := fun st =>
  let '(r, st') := m st in (Finished r, st').

Definition run_bind {A B : Type} (m : Run A) (k : A -> Run B) : Run B := fun st =>
  match m st with
  | (StillRunning, st') => (StillRunning, st')
  | (Finished (Return a), st') => k a st'
  | (Finished (Raise e), st') => (Finished (Raise e), st')
  end.

Definition run_try_except {A : Type} (body : Run A) (handler : M A) : Run A := fun st =>
  match body st with
  | (StillRunning, st') => (StillRunning, st')
  | (Finished (Return a), st') => (Finished (Return a), st')
  | (Finished (Raise _), st') => lift handler st'
  end.

(** One pass through the body of the loop; [true] is [break]. *)
Definition poll_crawler : M bool :=
  response ← call (get_crawler env (glue_crawler_name env));
  crawler ← subscript "Crawler" (Crawler_ response);
  status ← subscript "State" (State crawler);
  _ ← print ("Crawler '" +:+ glue_crawler_name env +:+ "' status: " +:+ status);
  if decide (status = "STOPPING") then mret true
  else
    _ ← sleep 10;
    mret false.

Fixpoint crawler_loop (fuel : nat) : Run unit := fun st =>
  match fuel with
  | O => (StillRunning, st)
  | S fuel' =>
      match poll_crawler st with
      | (Return true, st') => (Finished (Return ()), st')
      | (Return false, st') => crawler_loop fuel' st'
      | (Raise e, st') => (Finished (Raise e), st')
      end
  end.

(** The suite under [try:]. *)
Definition crawler_try_suite (fuel : nat) : Run unit :=
  run_bind
    (lift (response ← call (start_crawler env (glue_crawler_name env));
           print "Successfully started crawler. The crawler may take 2-5 mins to detect the schema."))
    (fun _ => crawler_loop fuel).

(** The [try ... except:] statement of the cell. *)
Definition crawler_try (fuel : nat) : Run unit :=
  run_try_except
    (crawler_try_suite fuel)
    (print "error in starting crawler. Check the logs for the error details.").

Definition cell_7 (fuel : nat) : Run unit :=
  run_bind
    (lift (print ("About to start running the crawler: " +:+ " " +:+ glue_crawler_name env)))
    (fun _ => crawler_try fuel).

End Notebook.
Arguments M : clear implicits.
Arguments Run : clear implicits.

(** ** The code cells of the notebook that run the functions above *)

Inductive CodeCell : Type := Cell7 | Cell9 | Cell12 | CellDIY.

#[global] Instance CodeCell_eq_dec : EqDecision CodeCell.
Proof. solve_decision. Defined.

Definition notebook : list CodeCell := [Cell7; Cell9; Cell12; CellDIY].

Definition exec_cell {World DbHandle : Type} (env : Env World DbHandle)
    (fuel : nat) (c : CodeCell) : Run World unit :=
  match c with
  | Cell7 => cell_7 env fuel
  | Cell9 => lift (cell_9 env)
  | Cell12 => lift (cell_12 env)
  | CellDIY => lift (cell_DIY env)
  end.

(** Running cells one after the other; an exception stops the run. *)
Fixpoint run_cells {World DbHandle : Type} (env : Env World DbHandle)
    (fuel : nat) (cells : list CodeCell) : Run World unit :=
  match cells with
  | [] => lift (mret ())
  | c :: rest => run_bind (exec_cell env fuel c) (fun _ => run_cells env fuel rest)
  end.

(** ** Vocabulary of the specification *)

(** A statement that leaves the global [glue_catalog] as it found it,
    whether it returns or raises. *)
Definition keeps_catalog {World A : Type} (m : M World A) : Prop :=
  forall st, glue_catalog (m st).2 = glue_catalog st.


Section Vocabulary.
Context {World DbHandle : Type}.
Variable env : Env World DbHandle.

(** The state the crawler reports when polled in world [w], if the call
    returns and the response carries one. *)
Definition crawler_status (w : World) : option string :=
  match (get_crawler env (glue_crawler_name env) w).1 with
  | Return response => Crawler_ response ≫= State
  | Raise _ => None
  end.

(** The world in which the next poll happens: the call has been made and
    ten seconds have passed. *)
Definition next_poll (w : World) : World :=
  time_sleep env 10 (get_crawler env (glue_crawler_name env) w).2.

(** The state reported by the [k]-th poll (from 0) of a loop that starts
    polling in world [w] and has not left the loop before. *)
Fixpoint polled_state (k : nat) (w : World) : option string :=
  match k with
  | O => crawler_status w
  | S k' => polled_state k' (next_poll w)
  end.

Definition status_line (status : string) : string :=
  "Crawler '" +:+ glue_crawler_name env +:+ "' status: " +:+ status.

(** What [k] polls that stay in the loop print and sleep. *)
Fixpoint waiting_effects (k : nat) (w : World) : list Effect :=
  match k with
  | O => []
  | S k' =>
      match crawler_status w with
      | Some status =>
          Print (status_line status) :: Sleep 10 :: waiting_effects k' (next_poll w)
      | None => []
      end
  end.

Fixpoint world_at_poll (k : nat) (w : World) : World :=
  match k with
  | O => w
  | S k' => world_at_poll k' (next_poll w)
  end.

(** The tables the metadata source hands over for the databases [dbs], in
    the order of the calls and of each response's list. *)
Fixpoint discovered_tables (dbs : list string) (w : World)
    : option (list Table * World) :=
  match dbs with
  | [] => Some ([], w)
  | db :: rest =>
      match get_tables env db w with
      | (Return response, w') =>
          table_list ← TableList response;
          '(more, w'') ← discovered_tables rest w';
          Some (table_list ++ more, w'')
      | (Raise _, _) => None
      end
  end.
End Vocabulary.

(** The (database, table, column) triples of one table, in the order of its
    column list; [None] when the table lacks a key the harvester reads. *)
Definition table_entries (t : Table) : option (list (string * string * string)) :=
  sd ← tbl_StorageDescriptor t;
  location ← sd_Location sd;
  _ ← (if startswith location "s3" then Some "s3"
       else tbl_Parameters t ≫= (.!! "classification"));
  column_list ← sd_Columns sd;
  mapM (fun c =>
          dbname ← tbl_DatabaseName t;
          tblname ← tbl_Name t;
          colname ← col_Name c;
          Some (dbname, tblname, colname)) column_list.

Definition catalog_line (entry : string * string * string) : string :=
  let '(dbname, tblname, colname) := entry in
  nl +:+ dbname +:+ "|" +:+ tblname +:+ "|" +:+ colname.

Definition catalog_lines (entries : list (string * string * string)) : string :=
  foldr (fun entry rest => catalog_line entry +:+ rest) "" entries.

(** The header line followed by one line per triple. *)
Definition catalog_string (entries : list (string * string * string)) : string :=
  "database|table|column_name" +:+ catalog_lines entries.

(** *** The loops of [parse_catalog], body by body

    The body of the loop over the tables of one response, and the body of
    the loop over the databases, under names of their own; by
    [parse_catalog_unfold] the harvester is these two loops. *)
Definition harvest_table {World : Type} (tables : Table) (columns_str : string)
    : M World string :=
  sd ← subscript "StorageDescriptor" (tbl_StorageDescriptor tables);
  location ← subscript "Location" (sd_Location sd);
  classification ←
    (if startswith location "s3" then mret "s3"
     else
       parameters ← subscript "Parameters" (tbl_Parameters tables);
       subscript "classification" (parameters !! "classification"));
  sd ← subscript "StorageDescriptor" (tbl_StorageDescriptor tables);
  column_list ← subscript "Columns" (sd_Columns sd);
  for_in column_list (fun columns columns_str =>
    dbname ← subscript "DatabaseName" (tbl_DatabaseName tables);
    tblname ← subscript "Name" (tbl_Name tables);
    colname ← subscript "Name" (col_Name columns);
    mret (columns_str +:+ (nl +:+ dbname +:+ "|" +:+ tblname +:+ "|" +:+ colname)))
    columns_str.

Definition harvest_database {World DbHandle : Type} (env : Env World DbHandle)
    (db columns_str : string) : M World string :=
  response ← call (get_tables env db);
  table_list ← subscript "TableList" (TableList response);
  for_in table_list harvest_table columns_str.

(** The triple one column of a table gives, when the keys are there. *)
Definition column_entry (t : Table) (c : Column) : option (string * string * string) :=
  dbname ← tbl_DatabaseName t;
  tblname ← tbl_Name t;
  colname ← col_Name c;
  Some (dbname, tblname, colname).

(** A statement that prints nothing, does not sleep and leaves the global
    [glue_catalog] alone, whether it returns or raises. *)
Definition silent {World A : Type} (m : M World A) : Prop :=
  forall st, effects (m st).2 = effects st /\ glue_catalog (m st).2 = glue_catalog st.



(** The seconds spent in [time.sleep] among the effects of a run. *)
Fixpoint slept (done : list Effect) : nat :=
  match done with
  | [] => 0
  | Sleep seconds :: rest => seconds + slept rest
  | Print _ :: rest => slept rest
  end.

(** ** The set-up cells and the fine-tuning notebook

    The code below runs outside the session above: each piece is a function
    of what its one client call answers.  It can also end in IndexError and
    ValueError. *)

Inductive PyRaised : Type :=
| IndexError (msg : string)
| ValueError (msg : string)
| Raised (e : PyExc).

Inductive Outcome (A : Type) : Type :=
| Ok (a : A)
| Err (e : PyRaised).
Arguments Ok {A} a.
Arguments Err {A} e.

#[global] Instance Outcome_ret : MRet Outcome := fun A a => Ok a.

#[global] Instance Outcome_bind : MBind Outcome := fun A B k m =>
  match m with
  | Ok a => k a
  | Err e => Err e
  end.

(** [d[key]] on a dict whose entry may be missing. *)
Definition item {A : Type} (key : string) (entry : option A) : Outcome A :=
  match entry with
  | Some v => Ok v
  | None => Err (Raised (KeyError key))
  end.

(** [l[0]] *)
Definition first_item {A : Type} (l : list A) : Outcome A :=
  match l with
  | x :: _ => Ok x
  | [] => Err (IndexError "list index out of range")
  end.

(** [for x in items: acc = body(x, acc)] *)
Fixpoint for_each {A Acc : Type} (items : list A) (body : A -> Acc -> Outcome Acc)
    (acc : Acc) : Outcome Acc :=
  match items with
  | [] => Ok acc
  | x :: rest => acc' ← body x acc; for_each rest body acc'
  end.

(** *** Code cell 4: the outputs of the CloudFormation stack *)

Record StackOutput : Type := mkStackOutput {
  OutputKey : option string;
  OutputValue : option string
}.

Record Stack : Type := mkStack { Outputs : option (list StackOutput) }.

Record DescribeStacksResponse : Type := mkDescribeStacksResponse {
  Stacks : option (list Stack)
}.

(** [describe_stacks] is [cfn_client.describe_stacks(StackName=...)].  In
    [outputs[output['OutputKey']] = output['OutputValue']] the right-hand
    side is evaluated before the subscript of the target. *)
Definition get_cfn_outputs (describe_stacks : string -> Outcome DescribeStacksResponse)
    (cloudformation_stack_name : string) : Outcome (gmap string string) :=
  let outputs : gmap string string := ∅ in
  response ← describe_stacks cloudformation_stack_name;
  stacks ← item "Stacks" (Stacks response);
  stack ← first_item stacks;
  output_list ← item "Outputs" (Outputs stack);
  outputs ← for_each output_list (fun output outputs =>
    value ← item "OutputValue" (OutputValue output);
    key ← item "OutputKey" (OutputKey output);
    mret (<[key := value]> outputs)) outputs;
  mret outputs.

(** *** Code cell 5: the names read from the outputs

    [glue_db_name], [glue_crawler_name] and [lab_files_bucket], in the
    order the cell binds them. *)
Definition cell_5 (outputs : gmap string string) : Outcome (string * string * string) :=
  glue_db_name ← item "LibraryDatabaseName" (outputs !! "LibraryDatabaseName");
  glue_crawler_name ← item "LibraryCrawlerName" (outputs !! "LibraryCrawlerName");
  lab_files_bucket ← item "LabfilesBucketName" (outputs !! "LabfilesBucketName");
  mret (glue_db_name, glue_crawler_name, lab_files_bucket).

(** An output that carries both of its keys. *)
Definition complete_output (output : StackOutput) : Prop :=
  is_Some (OutputKey output) /\ is_Some (OutputValue output).

(** The value of the last output of the list that carries [key]. *)
Fixpoint last_output (key : string) (output_list : list StackOutput) : option string :=
  match output_list with
  | [] => None
  | output :: rest =>
      match last_output key rest with
      | Some value => Some value
      | None => if decide (OutputKey output = Some key) then OutputValue output else None
      end
  end.

(** *** The fine-tuning notebook: [_add_text] *)

(** A field of a record of the dataset: a string, or [None] where the CSV
    file has nothing. *)
Inductive PyVal : Type :=
| PyNone
| PyStr (s : string).

#[global] Instance PyVal_eq_dec : EqDecision PyVal.
Proof. solve_decision. Defined.

(** Python's truth value of a field: [None] and the empty string are false. *)
Definition truthy (v : PyVal) : bool :=
  match v with
  | PyNone => false
  | PyStr s => negb (String.eqb s "")
  end.

(** What [.format] and an f-string put in place of a field. *)
Definition py_str (v : PyVal) : string :=
  match v with
  | PyNone => "None"
  | PyStr s => s
  end.

Section AddText.
(** [PROMPT] comes from utils.helpers; [PROMPT_format instruction response]
    is [PROMPT.format(instruction=instruction, response=response)], which
    may raise.  [rec_repr] is Python's text of a dict, as an f-string
    prints it. *)
Variable PROMPT_format : string -> string -> Outcome string.
Variable rec_repr : gmap string PyVal -> string.

Definition _add_text (rec : gmap string PyVal) : Outcome (gmap string PyVal) :=
  instruction ← item "instruction" (rec !! "instruction");
  response ← item "response" (rec !! "response");
  if negb (truthy instruction) then
    Err (ValueError ("Expected an instruction in: " +:+ rec_repr rec))
  else if negb (truthy response) then
    Err (ValueError ("Expected a response in: " +:+ rec_repr rec))
  else
    text ← PROMPT_format (py_str instruction) (py_str response);
    mret (<["text" := PyStr text]> rec).
End AddText.

(** *** The fine-tuning notebook: choosing the bucket and uploading *)

Fixpoint char_in (c : Ascii.ascii) (chars : string) : bool :=
  match chars with
  | EmptyString => false
  | String c' rest => if decide (c = c') then true else char_in c rest
  end.

(** Python's [s.lstrip(chars)], [s.rstrip(chars)] and [s.strip(chars)]:
    [chars] is the set of characters taken off the ends. *)
Fixpoint lstrip (s chars : string) : string :=
  match s with
  | EmptyString => EmptyString
  | String c s' => if char_in c chars then lstrip s' chars else s
  end.

Fixpoint rstrip (s chars : string) : string :=
  match s with
  | EmptyString => EmptyString
  | String c s' =>
      match rstrip s' chars with
      | EmptyString => if char_in c chars then EmptyString else String c EmptyString
      | kept => String c kept
      end
  end.

Definition strip (s chars : string) : string := rstrip (lstrip s chars) chars.

(** Every character of [s] is in the set [chars]. *)
Fixpoint all_in (s chars : string) : Prop :=
  match s with
  | EmptyString => True
  | String c s' => char_in c chars = true /\ all_in s' chars
  end.

(** The first and the last character of a string. *)
Definition first_char (s : string) : option Ascii.ascii :=
  match s with
  | EmptyString => None
  | String c _ => Some c
  end.

Fixpoint last_char (s : string) : option Ascii.ascii :=
  match s with
  | EmptyString => None
  | String c EmptyString => Some c
  | String _ s' => last_char s'
  end.

Record Bucket : Type := mkBucket { bkt_Name : option string }.

Record ListBucketsResponse : Type := mkListBucketsResponse {
  Buckets : option (list Bucket)
}.

(** [[bucket['Name'] for bucket in bucket_list['Buckets']
      if bucket['Name'].startswith('automate')]] *)
Definition automate_bucket_names (bucket_list : ListBucketsResponse)
    : Outcome (list string) :=
  buckets ← item "Buckets" (Buckets bucket_list);
  for_each buckets (fun bucket bucket_names =>
    name ← item "Name" (bkt_Name bucket);
    if startswith name "automate" then
      name ← item "Name" (bkt_Name bucket);
      mret (bucket_names ++ [name])
    else mret bucket_names) [].

(** The cell that uploads the packaged model: [list_buckets] is what
    [s3_client.list_buckets()] answers and [upload_file] is
    [s3_client.upload_file(Filename, Bucket, Key)]. *)
Definition upload_cell (list_buckets : Outcome ListBucketsResponse)
    (upload_file : string -> string -> string -> Outcome unit) : Outcome unit :=
  bucket_list ← list_buckets;
  bucket_names ← automate_bucket_names bucket_list;
  first ← first_item bucket_names;
  let mybucket := strip first "'[]" in
  upload_file "lora_model.tar.gz" mybucket "output/lora_model.tar.gz".

(** ** A library session to run the code on *)

Definition library_columns : list Column :=
  map (fun c => mkColumn (Some c)) ["book_id"; "title"; "author"; "genre"; "pub_date"].

Definition s3_library_data : Table :=
  mkTable (Some "librarydb") (Some "s3_library_data")
    (Some (mkStorageDescriptor (Some "s3://labfiles/library-data/") (Some library_columns)))
    (Some {[ "classification" := "json" ]}).

(** A view over the library table: no storage location of its own and no
    classification among its parameters. *)
Definition fantasy_books_view : Table :=
  mkTable (Some "librarydb") (Some "fantasy_books")
    (Some (mkStorageDescriptor (Some "") (Some [mkColumn (Some "title")])))
    (Some {[ "presto_view" := "true" ]}).

(** What a verbose chain prints around its answer. *)
Definition chain_trace : list string :=
  ["> Entering new SQLDatabaseChain chain...";
   "SQLQuery: select count ( * ) from s3_library_data";
   "> Finished chain."].

(** The world is a clock of service calls and seconds slept; the crawler
    reports RUNNING until the clock reaches [ready]; the model answers every
    prompt with [completion]; the metadata source lists [tables]. *)
Definition library_env (ready : nat) (tables : list Table) (completion : string)
    : Env nat string :=
  mkEnv nat string
    "library-crawler" ["librarydb"] "athena"
    (fun _ w => (Return (), S w))
    (fun _ w => (Return (mkGetCrawlerResponse (Some (mkCrawler
                   (Some (if decide (ready <= w) then "STOPPING" else "RUNNING"))))), S w))
    (fun seconds w => seconds + w)
    (fun _ w => (Return (mkGetTablesResponse (Some tables)), S w))
    (fun _ _ w => (Return completion, S w))
    (fun _ _ _ w => (Return "There are 1000 books in the library.", chain_trace, S w)).

(** A crawler that never reports STOPPING. *)
Definition stuck_env : Env nat string :=
  mkEnv nat string
    "library-crawler" ["librarydb"] "athena"
    (fun _ w => (Return (), S w))
    (fun _ w => (Return (mkGetCrawlerResponse (Some (mkCrawler (Some "RUNNING")))), S w))
    (fun seconds w => seconds + w)
    (fun _ w => (Return (mkGetTablesResponse (Some [s3_library_data])), S w))
    (fun _ _ w => (Return "SELECT 1", S w))
    (fun _ _ _ w => (Return "1", chain_trace, S w)).

(** A crawler that cannot be started. *)
Definition denied_env : Env nat string :=
  mkEnv nat string
    "library-crawler" ["librarydb"] "athena"
    (fun _ w => (Raise (LibraryError "CrawlerRunningException" "already running"), S w))
    (fun _ w => (Return (mkGetCrawlerResponse (Some (mkCrawler (Some "RUNNING")))), S w))
    (fun seconds w => seconds + w)
    (fun _ w => (Return (mkGetTablesResponse (Some [s3_library_data])), S w))
    (fun _ _ w => (Return "SELECT 1", S w))
    (fun _ _ _ w => (Return "1", chain_trace, S w)).

Definition fresh : Session nat := mkSession None [] 0.

Definition harvested : Session nat :=
  mkSession (Some "database|table|column_name") [] 0.

Definition sql_completion : string :=
  "SELECT COUNT(*) FROM s3_library_data; -- no api needed".

Definition api_completion : string :=
  "Call the weather api for the forecast.".

Definition lost_completion : string :=
  "I am unable to answer that question.".

Definition books_query : string :=
  "How many total books are there in the library?".

(** A metadata source that cannot be reached. *)
Definition offline_env : Env nat string :=
  mkEnv nat string
    "library-crawler" ["librarydb"] "athena"
    (fun _ w => (Return (), S w))
    (fun _ w => (Return (mkGetCrawlerResponse (Some (mkCrawler (Some "STOPPING")))), S w))
    (fun seconds w => seconds + w)
    (fun _ w => (Raise (LibraryError "EndpointConnectionError" "could not connect"), S w))
    (fun _ _ w => (Return sql_completion, S w))
    (fun _ _ _ w =>
       (Raise (LibraryError "OperationalError" "query failed"),
        ["> Entering new SQLDatabaseChain chain..."], S w)).

(** A crawler whose status can be read until the clock reaches 20. *)
Definition throttled_env : Env nat string :=
  mkEnv nat string
    "library-crawler" ["librarydb"] "athena"
    (fun _ w => (Return (), S w))
    (fun _ w =>
       (if decide (20 <= w)
        then Raise (LibraryError "ThrottlingException" "rate exceeded")
        else Return (mkGetCrawlerResponse (Some (mkCrawler (Some "RUNNING")))),
        S w))
    (fun seconds w => seconds + w)
    (fun _ w => (Return (mkGetTablesResponse (Some [s3_library_data])), S w))
    (fun _ _ w => (Return sql_completion, S w))
    (fun _ _ _ w => (Return "1", chain_trace, S w)).

(** The outputs of a lab stack; the crawler name is listed twice. *)
Definition lab_outputs : list StackOutput :=
  [mkStackOutput (Some "LibraryCrawlerName") (Some "old-crawler");
   mkStackOutput (Some "LibraryDatabaseName") (Some "librarydb");
   mkStackOutput (Some "LabfilesBucketName") (Some "labfiles");
   mkStackOutput (Some "LibraryCrawlerName") (Some "library-crawler")].

Definition describe_lab_stack (name : string) : Outcome DescribeStacksResponse :=
  Ok (mkDescribeStacksResponse (Some [mkStack (Some lab_outputs); mkStack None])).

Definition describe_no_stack (name : string) : Outcome DescribeStacksResponse :=
  Ok (mkDescribeStacksResponse (Some [])).

(** A prompt with the two fields in it, and a record of the FAQ dataset. *)
Definition faq_prompt (instruction response : string) : Outcome string :=
  Ok ("### Instruction:" +:+ nl +:+ instruction +:+ nl +:+
      "### Response:" +:+ nl +:+ response).

Definition faq_repr (rec : gmap string PyVal) : string := "{...}".

Definition faq_record : gmap string PyVal :=
  {[ "instruction" := PyStr "What is Amazon SageMaker?";
     "response" := PyStr "A managed machine learning service." ]}.

Definition lab_buckets : ListBucketsResponse :=
  mkListBucketsResponse
    (Some [mkBucket (Some "labfiles"); mkBucket (Some "automate-models");
           mkBucket (Some "automate-logs")]).

(** * Properties *)

(** ** Substring test *)

Lemma prefix_spec (needle hay : string) :
  String.prefix needle hay = true <-> exists post, hay = needle +:+ post.
Proof.
  revert hay. induction needle as [|a needle IH]; intros [|b hay]; simpl.
  - split; [intros _; by exists EmptyString | done].
  - split; [intros _; by exists (String b hay) | done].
  - split; [done | intros [post H]; discriminate H].
  - destruct (Ascii.ascii_dec a b) as [->|Hab].
    + rewrite IH. split; intros [post H]; exists post; [by rewrite H | by injection H].
    + split; [done | intros [post H]; injection H; intros; congruence].
Qed.

Lemma str_in_spec (needle hay : string) :
  str_in needle hay = true <-> Substring needle hay.
Proof.
  unfold Substring. induction hay as [|c hay IH]; cbn [str_in].
  - rewrite orb_false_r, prefix_spec. split.
    + intros [post H]. by exists EmptyString, post.
    + intros [[|? ?] [post H]]; [by exists post | discriminate H].
  - rewrite orb_true_iff, prefix_spec, IH. split.
    + intros [[post H] | (pre & post & H)].
      * by exists EmptyString, post.
      * exists (String c pre), post. simpl. by rewrite H.
    + intros ([|c' pre] & post & H).
      * left. by exists post.
      * right. simpl in H. injection H as _ H. by exists pre, post.
Qed.

(** ** The channel router, branch by branch *)

Section Router.
Context {World DbHandle : Type}.
Variable env : Env World DbHandle.

Lemma identify_channel_unbound_catalog (query : string) (st : Session World) :
  glue_catalog st = None ->
  identify_channel env query st = (Raise (NameError "glue_catalog"), st).
Proof.
  intros H. unfold identify_channel, mbind, M_bind, load_glue_catalog.
  by rewrite H.
Qed.

Lemma identify_channel_eq (query catalog : string) (st : Session World) :
  glue_catalog st = Some catalog ->
  identify_channel env query st =
    match LLMChain_run env (prompt_template_titan catalog) query (world st) with
    | (Return generated_texts, w) =>
        if str_in "s3" generated_texts then
          (Return ("db", dbathena env),
           mkSession (Some catalog) (effects st ++ [Print "SET database to athena"]) w)
        else if str_in "api" generated_texts then
          (Raise (UnboundLocalError "db"),
           mkSession (Some catalog) (effects st ++ [Print "SET database to weather api"]) w)
        else
          (Raise (Exception_ "User question cannot be answered by any of the channels mentioned in the catalog"),
           mkSession (Some catalog) (effects st) w)
    | (Raise e, w) => (Raise e, mkSession (Some catalog) (effects st) w)
    end.
Proof.
  intros H. destruct st as [gc eff w0]. simpl in H. subst gc.
  unfold identify_channel, mbind, M_bind, load_glue_catalog, call. cbn.
  destruct (LLMChain_run env (prompt_template_titan catalog) query w0)
    as [[generated_texts|e] w]; [|done].
  destruct (str_in "s3" generated_texts); [done|].
  by destruct (str_in "api" generated_texts).
Qed.

(** C1: a completion that contains "s3" selects the warehouse channel:
    the router returns channel "db" together with the Athena handle,
    whatever else the completion contains ("api" included). *)
Theorem identify_channel_s3 (query catalog generated_texts : string)
    (st : Session World) (w : World) :
  glue_catalog st = Some catalog ->
  LLMChain_run env (prompt_template_titan catalog) query (world st)
    = (Return generated_texts, w) ->
  Substring "s3" generated_texts ->
  identify_channel env query st =
    (Return ("db", dbathena env),
     mkSession (Some catalog) (effects st ++ [Print "SET database to athena"]) w).
Proof.
  intros Hcat Hllm Hs3. apply str_in_spec in Hs3.
  by rewrite (identify_channel_eq _ _ _ Hcat), Hllm, Hs3.
Qed.

(** C3: a completion that contains neither "s3" nor "api" makes the router
    raise the plain exception with its fixed message; no channel is
    returned. *)
Theorem identify_channel_unmatched (query catalog generated_texts : string)
    (st : Session World) (w : World) :
  glue_catalog st = Some catalog ->
  LLMChain_run env (prompt_template_titan catalog) query (world st)
    = (Return generated_texts, w) ->
  ~ Substring "s3" generated_texts ->
  ~ Substring "api" generated_texts ->
  identify_channel env query st =
    (Raise (Exception_ "User question cannot be answered by any of the channels mentioned in the catalog"),
     mkSession (Some catalog) (effects st) w)
  /\ forall channel db st', identify_channel env query st <> (Return (channel, db), st').
Proof.
  intros Hcat Hllm Hs3 Hapi.
  rewrite <- str_in_spec in Hs3, Hapi.
  apply not_true_is_false in Hs3, Hapi.
  rewrite (identify_channel_eq _ _ _ Hcat), Hllm, Hs3, Hapi.
  split; [done | intros; discriminate].
Qed.

Lemma identify_channel_return_inv (query channel : string) (db : DbHandle)
    (st st' : Session World) :
  identify_channel env query st = (Return (channel, db), st') ->
  channel = "db" /\ db = dbathena env.
Proof.
  intros H. destruct (glue_catalog st) as [catalog|] eqn:Hcat.
  - rewrite (identify_channel_eq _ _ _ Hcat) in H.
    destruct (LLMChain_run _ _ _ _) as [[generated_texts|e] w]; [|discriminate].
    destruct (str_in "s3" generated_texts).
    + by injection H as <- <- _.
    + destruct (str_in "api" generated_texts); discriminate.
  - rewrite identify_channel_unbound_catalog in H by done. discriminate.
Qed.

(** C9: whenever the router returns, it returns channel "db" with the
    Athena handle; on the "api" branch the local [db] is unbound when
    [return channel, db] reads it, so that branch ends in
    UnboundLocalError and never returns. *)
Theorem identify_channel_returns_db :
  (forall query st channel db st',
      identify_channel env query st = (Return (channel, db), st') ->
      channel = "db" /\ db = dbathena env)
  /\ (forall query catalog generated_texts st w,
      glue_catalog st = Some catalog ->
      LLMChain_run env (prompt_template_titan catalog) query (world st)
        = (Return generated_texts, w) ->
      ~ Substring "s3" generated_texts ->
      Substring "api" generated_texts ->
      identify_channel env query st =
        (Raise (UnboundLocalError "db"),
         mkSession (Some catalog) (effects st ++ [Print "SET database to weather api"]) w)).
Proof.
  split.
  - intros query st channel db st'. apply identify_channel_return_inv.
  - intros query catalog generated_texts st w Hcat Hllm Hs3 Hapi.
    rewrite <- str_in_spec in Hs3, Hapi. apply not_true_is_false in Hs3.
    by rewrite (identify_channel_eq _ _ _ Hcat), Hllm, Hs3, Hapi.
Qed.

(** ** The query executor *)

Lemma run_query_eq (query : string) (st : Session World) :
  run_query env query st =
    match identify_channel env query st with
    | (Return (channel, db), st') => run_query_dispatch env query channel db st'
    | (Raise e, st') => (Raise e, st')
    end.
Proof.
  unfold run_query, mbind, M_bind.
  by destruct (identify_channel env query st) as [[[channel db]|e] st'].
Qed.

Lemma run_query_dispatch_db (query : string) (db : DbHandle) (st : Session World) :
  run_query_dispatch env query "db" db st =
    call_verbose (SQLDatabaseChain_run env db _DEFAULT_TEMPLATE query) st.
Proof.
  unfold run_query_dispatch. rewrite decide_True by done.
  unfold mbind, M_bind.
  by destruct (call_verbose (SQLDatabaseChain_run env db _DEFAULT_TEMPLATE query) st)
    as [[response|e] st'].
Qed.

(** C4: [run_query] hands the pair returned by [identify_channel] to its
    dispatch; on channel "db" the dispatch runs the text-to-SQL chain on
    the returned handle and its outcome is the chain's, on any other
    channel ("api" included) it raises "Unlisted channel. Check your
    unified catalog" and returns nothing. *)
Theorem run_query_by_channel (query channel : string) (db : DbHandle)
    (st st' : Session World) :
  identify_channel env query st = (Return (channel, db), st') ->
  run_query env query st = run_query_dispatch env query channel db st'
  /\ (channel = "db" ->
      run_query_dispatch env query channel db st' =
        call_verbose (SQLDatabaseChain_run env db _DEFAULT_TEMPLATE query) st')
  /\ (forall other : string, other <> "db" ->
      forall (handle : DbHandle) (s : Session World),
      run_query_dispatch env query other handle s =
        (Raise (Exception_ "Unlisted channel. Check your unified catalog"), s)).
Proof.
  intros H. split; [|split].
  - by rewrite run_query_eq, H.
  - intros ->. apply run_query_dispatch_db.
  - intros other Hother handle s. unfold run_query_dispatch.
    by destruct (decide (other = "db")).
Qed.

(** C10: for every query on which [identify_channel] returns, the test
    [channel == 'db'] of [run_query] succeeds, so [run_query] runs the
    chain and its else branch is not taken; an exception [run_query] ends
    in was raised by [identify_channel] or by the chain. *)
Theorem unlisted_channel_unreachable (query : string) (st : Session World) :
  (forall channel db st',
      identify_channel env query st = (Return (channel, db), st') ->
      channel = "db"
      /\ run_query env query st =
           call_verbose (SQLDatabaseChain_run env db _DEFAULT_TEMPLATE query) st')
  /\ (forall e st'',
      run_query env query st = (Raise e, st'') ->
      identify_channel env query st = (Raise e, st'')
      \/ exists st',
           identify_channel env query st = (Return ("db", dbathena env), st')
           /\ call_verbose (SQLDatabaseChain_run env (dbathena env) _DEFAULT_TEMPLATE query) st'
              = (Raise e, st'')).
Proof.
  split.
  - intros channel db st' H.
    destruct (identify_channel_return_inv _ _ _ _ _ H) as [-> ->].
    split; [done|]. by rewrite run_query_eq, H, run_query_dispatch_db.
  - intros e st'' H. rewrite run_query_eq in H.
    destruct (identify_channel env query st) as [[[channel db]|e'] st'] eqn:Hic.
    + destruct (identify_channel_return_inv _ _ _ _ _ Hic) as [-> ->].
      rewrite run_query_dispatch_db in H. right. by exists st'.
    + left. by injection H as -> ->.
Qed.
End Router.

(** ** The catalog harvester *)

Lemma str_app_assoc (s1 s2 s3 : string) : s1 +:+ s2 +:+ s3 = (s1 +:+ s2) +:+ s3.
Proof.
  induction s1 as [|a s1 IH]; [done|]. exact (f_equal (String a) IH).
Qed.

Lemma str_app_nil_r (s : string) : s +:+ "" = s.
Proof.
  induction s as [|a s IH]; [done|]. exact (f_equal (String a) IH).
Qed.

Lemma catalog_lines_app (es1 es2 : list (string * string * string)) :
  catalog_lines (es1 ++ es2) = catalog_lines es1 +:+ catalog_lines es2.
Proof.
  induction es1 as [|e es1 IH]; [done|].
  cbn [catalog_lines foldr app]. fold (catalog_lines (es1 ++ es2)).
  fold (catalog_lines es1). by rewrite IH, str_app_assoc.
Qed.

Section Harvester.
Context {World DbHandle : Type}.
Variable env : Env World DbHandle.

Lemma bind_mret {A : Type} (m : M World A) (st : Session World) :
  (x ← m; mret x) st = m st.
Proof. unfold mbind, M_bind. by destruct (m st) as [[a|e] st']. Qed.

(** A loop whose body appends one line per item. *)
Lemma for_in_each {A : Type} (body : A -> string -> M World string)
    (f : A -> option (string * string * string)) :
  (forall x e acc st, f x = Some e ->
     body x acc st = (Return (acc +:+ catalog_line e), st)) ->
  forall items es acc st, mapM f items = Some es ->
    for_in items body acc st = (Return (acc +:+ catalog_lines es), st).
Proof.
  intros Hbody items es acc st H. apply mapM_Some in H.
  revert acc. induction H as [|x e items es Hx _ IH]; intros acc.
  - cbn. by rewrite str_app_nil_r.
  - cbn [for_in]. unfold mbind, M_bind at 1. rewrite (Hbody _ _ _ _ Hx), IH.
    by rewrite <- str_app_assoc.
Qed.

(** A loop whose body appends the lines of a list of entries per item. *)
Lemma for_in_lines {A : Type} (body : A -> string -> M World string)
    (f : A -> option (list (string * string * string))) :
  (forall x es acc st, f x = Some es ->
     body x acc st = (Return (acc +:+ catalog_lines es), st)) ->
  forall items ess acc st, mapM f items = Some ess ->
    for_in items body acc st = (Return (acc +:+ catalog_lines (concat ess)), st).
Proof.
  intros Hbody items ess acc st H. apply mapM_Some in H.
  revert acc. induction H as [|x es items ess Hx _ IH]; intros acc.
  - cbn. by rewrite str_app_nil_r.
  - cbn [for_in concat]. unfold mbind, M_bind at 1.
    rewrite (Hbody _ _ _ _ Hx), IH.
    by rewrite catalog_lines_app, str_app_assoc.
Qed.

(** The loop over the databases: one call of the metadata source each. *)
Lemma for_in_databases (body : string -> string -> M World string) :
  (forall db response tables es acc st w,
     get_tables env db (world st) = (Return response, w) ->
     TableList response = Some tables ->
     mapM table_entries tables = Some es ->
     body db acc st =
       (Return (acc +:+ catalog_lines (concat es)),
        mkSession (glue_catalog st) (effects st) w)) ->
  forall dbs tables es acc st w,
    discovered_tables env dbs (world st) = Some (tables, w) ->
    mapM table_entries tables = Some es ->
    for_in dbs body acc st =
      (Return (acc +:+ catalog_lines (concat es)),
       mkSession (glue_catalog st) (effects st) w).
Proof.
  intros Hbody dbs. induction dbs as [|db dbs IH]; intros tables es acc st w Hd Hm.
  - cbn in Hd. injection Hd as <- <-. cbn in Hm. injection Hm as <-.
    cbn. rewrite str_app_nil_r. by destruct st.
  - cbn [discovered_tables] in Hd.
    destruct (get_tables env db (world st)) as [[response|e] w1] eqn:Hg; [|done].
    destruct (TableList response) as [tables1|] eqn:Htl; [|done].
    cbn in Hd.
    destruct (discovered_tables env dbs w1) as [[tables2 w2]|] eqn:Hrest; [|done].
    cbn in Hd. injection Hd as <- <-.
    apply mapM_Some, Forall2_app_inv_l in Hm as (es1 & es2 & H1 & H2 & ->).
    apply mapM_Some in H1, H2.
    cbn [for_in]. unfold mbind, M_bind at 1.
    rewrite (Hbody _ _ _ _ _ _ _ Hg Htl H1).
    rewrite (IH tables2 es2 _ _ w2); [|done..].
    cbn. by rewrite concat_app, catalog_lines_app, str_app_assoc.
Qed.

(** C5, as amended: when every table the metadata source hands over
    carries the keys the harvester reads, [parse_catalog] returns the
    header line "database|table|column_name" followed by one line
    "database|table|column" per triple, in the order of discovery, a
    triple that occurs twice giving two lines. *)
Theorem parse_catalog_lines (st : Session World) (tables : list Table)
    (w : World) (entries : list (list (string * string * string))) :
  discovered_tables env (gdc env) (world st) = Some (tables, w) ->
  mapM table_entries tables = Some entries ->
  parse_catalog env st =
    (Return (catalog_string (concat entries)),
     mkSession (glue_catalog st) (effects st) w).
Proof.
  intros Hd Hm. unfold parse_catalog. rewrite bind_mret.
  unfold catalog_string.
  eapply for_in_databases; [|exact Hd|exact Hm].
  clear. intros db response tables es acc st w Hg Htl Hm.
  unfold mbind at 1, M_bind at 1, call. rewrite Hg.
  unfold mbind at 1, M_bind at 1. rewrite Htl. cbn [subscript mret M_ret].
  erewrite (for_in_lines _ table_entries); [done| |exact Hm].
  clear. intros t es acc st Ht. unfold table_entries in Ht.
  destruct (tbl_StorageDescriptor t) as [[location column_list]|]; [|done].
  cbn in Ht. destruct location as [location|]; [|done].
  cbn in Ht. unfold mbind, M_bind. cbn [subscript mret M_ret sd_Location sd_Columns].
  assert (Hcolumns : forall cols : list Column,
    mapM (λ c : Column,
            dbname ← tbl_DatabaseName t; tblname ← tbl_Name t;
            colname ← col_Name c; Some (dbname, tblname, colname))
         cols = Some es ->
    for_in cols
      (λ columns columns_str,
         dbname ← subscript "DatabaseName" (tbl_DatabaseName t);
         tblname ← subscript "Name" (tbl_Name t);
         colname ← subscript "Name" (col_Name columns);
         mret (columns_str +:+ (nl +:+ dbname +:+ "|" +:+ tblname +:+ "|" +:+ colname)))
      acc st = (Return (acc +:+ catalog_lines es), st)).
  { intros cols. apply for_in_each.
    clear. intros c e acc st He. unfold mbind, M_bind.
    destruct (tbl_DatabaseName t), (tbl_Name t), (col_Name c); by simplify_eq/=. }
  destruct (startswith location "s3") eqn:Hs3.
  - cbn in Ht. destruct column_list as [column_list|]; [|done]. cbn in Ht.
    cbn. by apply Hcolumns.
  - destruct (tbl_Parameters t) as [parameters|]; [|done]. cbn in Ht |- *.
    destruct (parameters !! "classification") as [classification|]; [|done].
    cbn in Ht |- *. destruct column_list as [column_list|]; [|done].
    cbn in Ht |- *. by apply Hcolumns.
Qed.
End Harvester.

(** ** The crawler cell *)

Section CrawlerCell.
Context {World DbHandle : Type}.
Variable env : Env World DbHandle.

(** One pass through the loop body, by what the poll reports. *)
Lemma poll_crawler_waiting (st : Session World) (status : string) :
  crawler_status env (world st) = Some status ->
  status <> "STOPPING" ->
  poll_crawler env st =
    (Return false,
     mkSession (glue_catalog st)
               (effects st ++ [Print (status_line env status); Sleep 10])
               (next_poll env (world st))).
Proof.
  unfold crawler_status, poll_crawler, next_poll, mbind, M_bind, call.
  destruct (get_crawler env (glue_crawler_name env) (world st))
    as [[[[[[state|]]|]]|e] w]; try done.
  cbn. intros [= ->] Hne. rewrite decide_False by done. cbn.
  by rewrite <- app_assoc.
Qed.

Lemma poll_crawler_stopping (st : Session World) :
  crawler_status env (world st) = Some "STOPPING" ->
  poll_crawler env st =
    (Return true,
     mkSession (glue_catalog st)
               (effects st ++ [Print (status_line env "STOPPING")])
               (get_crawler env (glue_crawler_name env) (world st)).2).
Proof.
  unfold crawler_status, poll_crawler, mbind, M_bind, call.
  destruct (get_crawler env (glue_crawler_name env) (world st))
    as [[[[[[state|]]|]]|e] w]; try done.
  cbn. by intros [= ->].
Qed.

Lemma poll_crawler_raises (st : Session World) :
  crawler_status env (world st) = None ->
  exists e, poll_crawler env st =
    (Raise e,
     mkSession (glue_catalog st) (effects st)
               (get_crawler env (glue_crawler_name env) (world st)).2).
Proof.
  unfold crawler_status, poll_crawler, mbind, M_bind, call.
  destruct (get_crawler env (glue_crawler_name env) (world st))
    as [[[[[[state|]]|]]|e] w]; try done; intros _; by eexists.
Qed.

(** [k] polls that report a state other than STOPPING use up [k]
    iterations and leave the loop where it was, [k] polls later. *)
Lemma crawler_loop_waiting (k fuel : nat) (st : Session World) :
  (forall j, j < k ->
     exists status, polled_state env j (world st) = Some status
                    /\ status <> "STOPPING") ->
  crawler_loop env (k + fuel) st =
    crawler_loop env fuel
      (mkSession (glue_catalog st)
                 (effects st ++ waiting_effects env k (world st))
                 (world_at_poll env k (world st))).
Proof.
  revert st. induction k as [|k IH]; intros st Hwait.
  - cbn. rewrite app_nil_r. by destruct st.
  - destruct (Hwait 0) as (status & Hstatus & Hne); [lia|]. cbn in Hstatus.
    cbn [Nat.add crawler_loop].
    rewrite (poll_crawler_waiting _ _ Hstatus Hne).
    rewrite IH.
    + cbn [glue_catalog effects world waiting_effects world_at_poll].
      rewrite Hstatus. by rewrite <- app_assoc.
    + intros j Hj. apply (Hwait (S j)). lia.
Qed.

(** A loop that has left by [break] did so at a poll that reported
    STOPPING, after polls that did not. *)
Lemma crawler_loop_break_inv (fuel : nat) (st st' : Session World) :
  crawler_loop env fuel st = (Finished (Return ()), st') ->
  exists k, k < fuel
    /\ polled_state env k (world st) = Some "STOPPING"
    /\ (forall j, j < k ->
          exists status, polled_state env j (world st) = Some status
                         /\ status <> "STOPPING")
    /\ effects st' =
         effects st ++ waiting_effects env k (world st)
           ++ [Print (status_line env "STOPPING")].
Proof.
  revert st. induction fuel as [|fuel IH]; intros st H; [done|].
  cbn [crawler_loop] in H.
  destruct (crawler_status env (world st)) as [status|] eqn:Hstatus.
  - destruct (decide (status = "STOPPING")) as [->|Hne].
    + rewrite (poll_crawler_stopping _ Hstatus) in H. injection H as <-.
      exists 0. split; [lia|]. split; [done|]. split; [intros; lia|done].
    + rewrite (poll_crawler_waiting _ _ Hstatus Hne) in H.
      apply IH in H as (k & Hk & Hstop & Hwait & Heff). cbn in Hstop, Hwait, Heff.
      exists (S k). split; [lia|]. split; [done|]. split.
      * intros [|j] Hj; [by exists status|]. apply Hwait. lia.
      * cbn [waiting_effects]. rewrite Hstatus, Heff.
        by rewrite <- !app_assoc.
  - destruct (poll_crawler_raises _ Hstatus) as [e He]. by rewrite He in H.
Qed.

(** C6: the polling loop has no timeout.  While no poll reports STOPPING
    the loop is still running after any number of iterations, having
    slept 10 seconds after each poll; it leaves by [break] only at a poll
    that reports STOPPING, and at the first such poll it does leave,
    having slept 10 seconds between each two consecutive polls. *)
Theorem crawler_loop_no_timeout (st : Session World) :
  ((forall k, exists status,
       polled_state env k (world st) = Some status /\ status <> "STOPPING") ->
   forall fuel,
     crawler_loop env fuel st =
       (StillRunning,
        mkSession (glue_catalog st)
                  (effects st ++ waiting_effects env fuel (world st))
                  (world_at_poll env fuel (world st))))
  /\ (forall fuel st',
        crawler_loop env fuel st = (Finished (Return ()), st') ->
        exists k, k < fuel
          /\ polled_state env k (world st) = Some "STOPPING"
          /\ (forall j, j < k ->
                exists status, polled_state env j (world st) = Some status
                               /\ status <> "STOPPING")
          /\ effects st' =
               effects st ++ waiting_effects env k (world st)
                 ++ [Print (status_line env "STOPPING")])
  /\ (forall k,
        (forall j, j < k ->
           exists status, polled_state env j (world st) = Some status
                          /\ status <> "STOPPING") ->
        polled_state env k (world st) = Some "STOPPING" ->
        forall fuel, k < fuel ->
          crawler_loop env fuel st =
            (Finished (Return ()),
             mkSession (glue_catalog st)
               (effects st ++ waiting_effects env k (world st)
                  ++ [Print (status_line env "STOPPING")])
               (get_crawler env (glue_crawler_name env)
                  (world_at_poll env k (world st))).2)).
Proof.
  split; [|split].
  - intros Hwait fuel.
    rewrite <- (Nat.add_0_r fuel) at 1.
    by rewrite crawler_loop_waiting.
  - intros fuel st'. apply crawler_loop_break_inv.
  - intros k Hwait Hstop fuel Hfuel.
    replace fuel with (k + S (fuel - S k)) by lia.
    rewrite crawler_loop_waiting by done.
    cbn [crawler_loop].
    rewrite poll_crawler_stopping; cbn [glue_catalog effects world].
    + by rewrite <- app_assoc.
    + clear -Hstop. revert st Hstop. induction k as [|k IH]; intros st Hstop; [done|].
      cbn in Hstop |- *. by apply (IH (mkSession None [] (next_poll env (world st)))).
Qed.
End CrawlerCell.

Section CrawlerExceptions.
Context {World DbHandle : Type}.
Variable env : Env World DbHandle.

Lemma crawler_loop_poll_raises (k fuel : nat) (st : Session World)
    (e : PyExc) (w : World) :
  (forall j, j < k ->
     exists status, polled_state env j (world st) = Some status
                    /\ status <> "STOPPING") ->
  get_crawler env (glue_crawler_name env) (world_at_poll env k (world st))
    = (Raise e, w) ->
  k < fuel ->
  crawler_loop env fuel st =
    (Finished (Raise e),
     mkSession (glue_catalog st)
               (effects st ++ waiting_effects env k (world st)) w).
Proof.
  intros Hwait Hraise Hfuel.
  replace fuel with (k + S (fuel - S k)) by lia.
  rewrite crawler_loop_waiting by done.
  cbn [crawler_loop]. unfold poll_crawler, mbind, M_bind, call.
  cbn [world]. by rewrite Hraise.
Qed.

(** C7: whatever is raised under [try:], by starting the crawler or by
    polling it, is caught by the bare [except:], whose handler only
    prints the log line: the statement, and the cell, never end in an
    exception. *)
Theorem crawler_exceptions_caught (fuel : nat) (st : Session World) :
  (forall e st', crawler_try env fuel st <> (Finished (Raise e), st'))
  /\ (forall e st', cell_7 env fuel st <> (Finished (Raise e), st'))
  /\ (forall e st1,
        crawler_try_suite env fuel st = (Finished (Raise e), st1) ->
        crawler_try env fuel st =
          (Finished (Return ()),
           mkSession (glue_catalog st1)
             (effects st1 ++
                [Print "error in starting crawler. Check the logs for the error details."])
             (world st1)))
  /\ (forall e w,
        start_crawler env (glue_crawler_name env) (world st) = (Raise e, w) ->
        crawler_try_suite env fuel st =
          (Finished (Raise e), mkSession (glue_catalog st) (effects st) w))
  /\ (forall k e w1 w2,
        start_crawler env (glue_crawler_name env) (world st) = (Return (), w1) ->
        (forall j, j < k ->
           exists status, polled_state env j w1 = Some status
                          /\ status <> "STOPPING") ->
        get_crawler env (glue_crawler_name env) (world_at_poll env k w1)
          = (Raise e, w2) ->
        k < fuel ->
        crawler_try_suite env fuel st =
          (Finished (Raise e),
           mkSession (glue_catalog st)
             (effects st ++
                [Print "Successfully started crawler. The crawler may take 2-5 mins to detect the schema."]
                ++ waiting_effects env k w1)
             w2)).
Proof.
  assert (Htry : forall s e st', crawler_try env fuel s <> (Finished (Raise e), st')).
  { intros s e st'. unfold crawler_try, run_try_except, lift.
    by destruct (crawler_try_suite env fuel s) as [[[[]|e']|] st1]. }
  split; [apply Htry|]. split; [|split; [|split]].
  - intros e st'. unfold cell_7, run_bind, lift. cbn. apply Htry.
  - intros e st1 H. unfold crawler_try, run_try_except. by rewrite H.
  - intros e w H. unfold crawler_try_suite, run_bind, lift, mbind, M_bind, call.
    by rewrite H.
  - intros k e w1 w2 Hstart Hwait Hraise Hfuel.
    unfold crawler_try_suite, run_bind, lift, mbind, M_bind, call.
    rewrite Hstart. cbn.
    rewrite (crawler_loop_poll_raises k fuel _ e w2); [|done..].
    cbn. by rewrite <- app_assoc.
Qed.
End CrawlerExceptions.

(** ** The catalog string during the session *)

Section CatalogFrame.
Context {World DbHandle : Type}.

Lemma keeps_ret {A : Type} (a : A) : keeps_catalog (mret a : M World A).
Proof. done. Qed.

Lemma keeps_raise {A : Type} (e : PyExc) : keeps_catalog (raise e : M World A).
Proof. done. Qed.

Lemma keeps_print (line : string) : keeps_catalog (print line : M World unit).
Proof. done. Qed.

Lemma keeps_sleep (env : Env World DbHandle) (seconds : nat) :
  keeps_catalog (sleep env seconds).
Proof. done. Qed.

Lemma keeps_call {A : Type} (f : World -> Result A * World) :
  keeps_catalog (call f).
Proof. intros st. unfold call. by destruct (f (world st)). Qed.

Lemma keeps_call_verbose {A : Type} (f : World -> Result A * list string * World) :
  keeps_catalog (call_verbose f).
Proof. intros st. unfold call_verbose. by destruct (f (world st)) as [[r printed] w]. Qed.

Lemma keeps_subscript {A : Type} (key : string) (entry : option A) :
  keeps_catalog (subscript key entry : M World A).
Proof. by destruct entry. Qed.

Lemma keeps_load_fast {A : Type} (name : string) (slot : option A) :
  keeps_catalog (load_fast name slot : M World A).
Proof. by destruct slot. Qed.

Lemma keeps_load_glue_catalog : keeps_catalog (load_glue_catalog : M World string).
Proof. intros st. unfold load_glue_catalog. destruct (glue_catalog st) eqn:H; exact H. Qed.





Create HintDb catalog_frame.
#[local] Hint Resolve keeps_ret keeps_raise keeps_print keeps_sleep keeps_call
  keeps_call_verbose
  keeps_subscript keeps_load_fast keeps_load_glue_catalog : catalog_frame.


Variable env : Env World DbHandle.










End CatalogFrame.

(** ** The library session, run *)

Lemma identify_channel_s3_witness :
  identify_channel (library_env 30 [s3_library_data] sql_completion) books_query harvested
    = (Return ("db", "athena"),
       mkSession (Some "database|table|column_name") [Print "SET database to athena"] 1).
Proof.
  apply (identify_channel_s3 (library_env 30 [s3_library_data] sql_completion)
           books_query "database|table|column_name" sql_completion harvested 1).
  - reflexivity.
  - reflexivity.
  - exists "SELECT COUNT(*) FROM ", "_library_data; -- no api needed". reflexivity.
Defined.

(** C2 at a completion that names "api" and not "s3": the router sets
    channel "api", prints its line and then ends in UnboundLocalError for
    [db]; it does not return channel "api". *)
Example identify_channel_api_unbound_db :
  identify_channel (library_env 30 [s3_library_data] api_completion) books_query harvested
    = (Raise (UnboundLocalError "db"),
       mkSession (Some "database|table|column_name")
                 [Print "SET database to weather api"] 1).
Proof. reflexivity. Qed.

Lemma identify_channel_unmatched_witness :
  identify_channel (library_env 30 [s3_library_data] lost_completion) books_query harvested
    = (Raise (Exception_ "User question cannot be answered by any of the channels mentioned in the catalog"),
       mkSession (Some "database|table|column_name") [] 1)
  /\ forall channel db st',
       identify_channel (library_env 30 [s3_library_data] lost_completion) books_query harvested
         <> (Return (channel, db), st').
Proof.
  apply (identify_channel_unmatched (library_env 30 [s3_library_data] lost_completion)
           books_query "database|table|column_name" lost_completion harvested 1).
  - reflexivity.
  - reflexivity.
  - intros H. apply str_in_spec in H. vm_compute in H. discriminate H.
  - intros H. apply str_in_spec in H. vm_compute in H. discriminate H.
Defined.

Lemma identify_channel_returns_db_witness :
  "db" = "db"
  /\ "athena" = dbathena (library_env 30 [s3_library_data] sql_completion).
Proof.
  apply (proj1 (identify_channel_returns_db
                  (library_env 30 [s3_library_data] sql_completion))
           books_query harvested "db" "athena"
           (mkSession (Some "database|table|column_name")
                      [Print "SET database to athena"] 1)).
  reflexivity.
Defined.

Lemma run_query_by_channel_witness :
  run_query (library_env 30 [s3_library_data] sql_completion) books_query harvested
    = (Return "There are 1000 books in the library.",
       mkSession (Some "database|table|column_name")
                 (Print "SET database to athena" :: map Print chain_trace) 2).
Proof.
  pose proof (run_query_by_channel
                (library_env 30 [s3_library_data] sql_completion)
                books_query "db" "athena" harvested
                (mkSession (Some "database|table|column_name")
                           [Print "SET database to athena"] 1)
                eq_refl) as (Hrun & Hdb & _).
  rewrite Hrun, (Hdb eq_refl). reflexivity.
Defined.

Lemma unlisted_channel_unreachable_witness :
  "db" = "db"
  /\ run_query (library_env 30 [s3_library_data] sql_completion) books_query harvested
     = (Return "There are 1000 books in the library.",
        mkSession (Some "database|table|column_name")
                 (Print "SET database to athena" :: map Print chain_trace) 2).
Proof.
  apply (proj1 (unlisted_channel_unreachable
                  (library_env 30 [s3_library_data] sql_completion)
                  books_query harvested)
           "db" "athena"
           (mkSession (Some "database|table|column_name")
                      [Print "SET database to athena"] 1)).
  reflexivity.
Defined.

(** A catalog in which the same table is listed twice gives every line
    twice, in the order of the listing. *)
Lemma parse_catalog_lines_witness :
  parse_catalog (library_env 30 [s3_library_data; s3_library_data] sql_completion) fresh
    = (Return (catalog_string
                 [("librarydb", "s3_library_data", "book_id");
                  ("librarydb", "s3_library_data", "title");
                  ("librarydb", "s3_library_data", "author");
                  ("librarydb", "s3_library_data", "genre");
                  ("librarydb", "s3_library_data", "pub_date");
                  ("librarydb", "s3_library_data", "book_id");
                  ("librarydb", "s3_library_data", "title");
                  ("librarydb", "s3_library_data", "author");
                  ("librarydb", "s3_library_data", "genre");
                  ("librarydb", "s3_library_data", "pub_date")]),
       mkSession None [] 1).
Proof.
  apply (parse_catalog_lines
           (library_env 30 [s3_library_data; s3_library_data] sql_completion)
           fresh [s3_library_data; s3_library_data] 1
           [[("librarydb", "s3_library_data", "book_id");
             ("librarydb", "s3_library_data", "title");
             ("librarydb", "s3_library_data", "author");
             ("librarydb", "s3_library_data", "genre");
             ("librarydb", "s3_library_data", "pub_date")];
            [("librarydb", "s3_library_data", "book_id");
             ("librarydb", "s3_library_data", "title");
             ("librarydb", "s3_library_data", "author");
             ("librarydb", "s3_library_data", "genre");
             ("librarydb", "s3_library_data", "pub_date")]]).
  - reflexivity.
  - vm_compute. reflexivity.
Defined.

(** The metadata source returns a catalog that lists a view next to the
    library table; the harvester ends in KeyError and returns no string. *)
Lemma parse_catalog_view_raises :
  discovered_tables (library_env 30 [s3_library_data; fantasy_books_view] sql_completion)
      ["librarydb"] 0
    = Some ([s3_library_data; fantasy_books_view], 1)
  /\ parse_catalog (library_env 30 [s3_library_data; fantasy_books_view] sql_completion) fresh
     = (Raise (KeyError "classification"), mkSession None [] 1)
  /\ ~ exists catalog st',
       parse_catalog (library_env 30 [s3_library_data; fantasy_books_view] sql_completion) fresh
         = (Return catalog, st').
Proof.
  assert (H : parse_catalog
                (library_env 30 [s3_library_data; fantasy_books_view] sql_completion) fresh
              = (Raise (KeyError "classification"), mkSession None [] 1))
    by (vm_compute; reflexivity).
  split; [reflexivity|]. split; [exact H|].
  intros (catalog & st' & H'). rewrite H in H'. discriminate H'.
Qed.

Lemma stuck_env_running (k w : nat) : polled_state stuck_env k w = Some "RUNNING".
Proof.
  revert w. induction k as [|k IH]; intros w; [reflexivity|]. apply IH.
Defined.

Lemma crawler_loop_no_timeout_witness :
  crawler_loop stuck_env 3 fresh
    = (StillRunning,
       mkSession None
         [Print "Crawler 'library-crawler' status: RUNNING"; Sleep 10;
          Print "Crawler 'library-crawler' status: RUNNING"; Sleep 10;
          Print "Crawler 'library-crawler' status: RUNNING"; Sleep 10]
         33)
  /\ crawler_loop (library_env 30 [s3_library_data] sql_completion) 5 fresh
     = (Finished (Return ()),
        mkSession None
          [Print "Crawler 'library-crawler' status: RUNNING"; Sleep 10;
           Print "Crawler 'library-crawler' status: RUNNING"; Sleep 10;
           Print "Crawler 'library-crawler' status: RUNNING"; Sleep 10;
           Print "Crawler 'library-crawler' status: STOPPING"]
          34).
Proof.
  split.
  - apply (proj1 (crawler_loop_no_timeout stuck_env fresh)).
    intros k. exists "RUNNING". split; [apply stuck_env_running | discriminate].
  - apply (proj2 (proj2 (crawler_loop_no_timeout
                           (library_env 30 [s3_library_data] sql_completion) fresh)) 3).
    + intros j Hj. exists "RUNNING". split; [|discriminate].
      destruct j as [|[|[|j]]]; [reflexivity..|lia].
    + reflexivity.
    + lia.
Defined.

Lemma crawler_exceptions_caught_witness :
  crawler_try denied_env 5 fresh
    = (Finished (Return ()),
       mkSession None
         [Print "error in starting crawler. Check the logs for the error details."] 1).
Proof.
  destruct (crawler_exceptions_caught denied_env 5 fresh) as (_ & _ & Hcaught & Hstart & _).
  apply (Hcaught (LibraryError "CrawlerRunningException" "already running")
                 (mkSession None [] 1)).
  apply (Hstart (LibraryError "CrawlerRunningException" "already running") 1).
  reflexivity.
Defined.



(** * Further properties of the notebook's code *)

(** ** The harvester, table by table *)

Lemma parse_catalog_unfold {World DbHandle : Type} (env : Env World DbHandle) :
  parse_catalog env =
    (columns_str ← for_in (gdc env) (harvest_database env) "database|table|column_name";
     mret columns_str).
Proof. reflexivity. Qed.

Lemma for_in_app {World A Acc : Type} (l1 l2 : list A)
    (body : A -> Acc -> M World Acc) (acc : Acc) (st : Session World) :
  for_in (l1 ++ l2) body acc st =
    (acc' ← for_in l1 body acc; for_in l2 body acc') st.
Proof.
  revert acc st. induction l1 as [|x l1 IH]; intros acc st; [done|].
  cbn [app for_in]. unfold mbind, M_bind in *.
  destruct (body x acc st) as [[acc'|e] st']; [|done]. apply IH.
Qed.

Section HarvesterOutcomes.
Context {World DbHandle : Type}.
Variable env : Env World DbHandle.

(** A loop stops at the first item whose body raises. *)
Lemma for_in_each_stops {A : Type} (body : A -> string -> M World string)
    (f : A -> option (string * string * string)) :
  (forall x e acc st, f x = Some e ->
     body x acc st = (Return (acc +:+ catalog_line e), st)) ->
  (forall x acc st, f x = None -> exists e, body x acc st = (Raise e, st)) ->
  forall items acc st, mapM f items = None ->
    exists e, for_in items body acc st = (Raise e, st).
Proof.
  intros Hsome Hnone items. induction items as [|x items IH]; intros acc st H; [done|].
  cbn [for_in]. unfold mbind, M_bind. destruct (f x) as [e|] eqn:Hx.
  - rewrite (Hsome _ _ _ _ Hx). apply IH.
    apply mapM_None, Exists_cons in H as [H|H]; [congruence|by apply mapM_None].
  - destruct (Hnone x acc st Hx) as [e ->]. by exists e.
Qed.

Lemma for_in_lines_stops {A : Type} (body : A -> string -> M World string)
    (f : A -> option (list (string * string * string))) :
  (forall x es acc st, f x = Some es ->
     body x acc st = (Return (acc +:+ catalog_lines es), st)) ->
  (forall x acc st, f x = None -> exists e, body x acc st = (Raise e, st)) ->
  forall items acc st, mapM f items = None ->
    exists e, for_in items body acc st = (Raise e, st).
Proof.
  intros Hsome Hnone items. induction items as [|x items IH]; intros acc st H; [done|].
  cbn [for_in]. unfold mbind, M_bind. destruct (f x) as [es|] eqn:Hx.
  - rewrite (Hsome _ _ _ _ Hx). apply IH.
    apply mapM_None, Exists_cons in H as [H|H]; [congruence|by apply mapM_None].
  - destruct (Hnone x acc st Hx) as [e ->]. by exists e.
Qed.

Lemma harvest_table_Some (t : Table) (es : list (string * string * string))
    (acc : string) (st : Session World) :
  table_entries t = Some es ->
  harvest_table t acc st = (Return (acc +:+ catalog_lines es), st).
Proof.
  intros Ht. unfold table_entries in Ht. unfold harvest_table.
  destruct (tbl_StorageDescriptor t) as [[location column_list]|]; [|done].
  cbn in Ht. destruct location as [location|]; [|done].
  cbn in Ht. unfold mbind, M_bind. cbn [subscript mret M_ret sd_Location sd_Columns].
  assert (Hcolumns : forall cols : list Column,
    mapM (column_entry t) cols = Some es ->
    for_in cols
      (λ columns columns_str,
         dbname ← subscript "DatabaseName" (tbl_DatabaseName t);
         tblname ← subscript "Name" (tbl_Name t);
         colname ← subscript "Name" (col_Name columns);
         mret (columns_str +:+ (nl +:+ dbname +:+ "|" +:+ tblname +:+ "|" +:+ colname)))
      acc st = (Return (acc +:+ catalog_lines es), st)).
  { intros cols. apply for_in_each.
    clear. intros c e acc st He. unfold column_entry in He. unfold mbind, M_bind.
    destruct (tbl_DatabaseName t), (tbl_Name t), (col_Name c); by simplify_eq/=. }
  destruct (startswith location "s3") eqn:Hs3.
  - cbn in Ht. destruct column_list as [column_list|]; [|done]. cbn in Ht.
    cbn. by apply Hcolumns.
  - destruct (tbl_Parameters t) as [parameters|]; [|done]. cbn in Ht |- *.
    destruct (parameters !! "classification") as [classification|]; [|done].
    cbn in Ht |- *. destruct column_list as [column_list|]; [|done].
    cbn in Ht |- *. by apply Hcolumns.
Qed.

Lemma harvest_table_None (t : Table) (acc : string) (st : Session World) :
  table_entries t = None ->
  exists key, harvest_table t acc st = (Raise (KeyError key), st).
Proof.
  intros Ht. unfold table_entries in Ht. unfold harvest_table.
  destruct (tbl_StorageDescriptor t) as [[location column_list]|];
    [|by exists "StorageDescriptor"].
  cbn in Ht. destruct location as [location|]; [|by exists "Location"].
  cbn in Ht. unfold mbind, M_bind. cbn [subscript mret M_ret sd_Location sd_Columns].
  assert (Hcolumns : forall cols : list Column,
    mapM (column_entry t) cols = None ->
    exists key,
    for_in cols
      (λ columns columns_str,
         dbname ← subscript "DatabaseName" (tbl_DatabaseName t);
         tblname ← subscript "Name" (tbl_Name t);
         colname ← subscript "Name" (col_Name columns);
         mret (columns_str +:+ (nl +:+ dbname +:+ "|" +:+ tblname +:+ "|" +:+ colname)))
      acc st = (Raise (KeyError key), st)).
  { intros cols. clear. unfold column_entry.
    destruct (tbl_DatabaseName t) as [dbname|].
    2:{ destruct cols; [done|]. intros _. by exists "DatabaseName". }
    destruct (tbl_Name t) as [tblname|].
    2:{ destruct cols; [done|]. intros _. by exists "Name". }
    revert acc. induction cols as [|c cols IH]; intros acc H; [done|].
    cbn [for_in]. unfold mbind, M_bind.
    destruct (col_Name c) as [colname|] eqn:Hc; [|by exists "Name"].
    cbn. apply IH. apply mapM_None, Exists_cons in H as [H|H]; [|by apply mapM_None].
    cbn in H. by rewrite Hc in H. }
  destruct (startswith location "s3") eqn:Hs3.
  - cbn in Ht. destruct column_list as [column_list|]; [|by exists "Columns"].
    cbn in Ht. cbn. by apply Hcolumns.
  - destruct (tbl_Parameters t) as [parameters|]; [|by exists "Parameters"].
    cbn in Ht |- *.
    destruct (parameters !! "classification") as [classification|];
      [|by exists "classification"].
    cbn in Ht |- *. destruct column_list as [column_list|]; [|by exists "Columns"].
    cbn in Ht |- *. by apply Hcolumns.
Qed.

(** What the body of the loop over the databases does, by what the metadata
    source answers. *)
Lemma harvest_database_returns (db : string) (response : GetTablesResponse)
    (tables : list Table) (es : list (list (string * string * string)))
    (acc : string) (st : Session World) (w : World) :
  get_tables env db (world st) = (Return response, w) ->
  TableList response = Some tables ->
  mapM table_entries tables = Some es ->
  harvest_database env db acc st =
    (Return (acc +:+ catalog_lines (concat es)),
     mkSession (glue_catalog st) (effects st) w).
Proof.
  intros Hg Htl Hm. unfold harvest_database.
  unfold mbind at 1, M_bind at 1, call. rewrite Hg.
  unfold mbind at 1, M_bind at 1. rewrite Htl. cbn [subscript mret M_ret].
  erewrite (for_in_lines _ table_entries); [done| |exact Hm].
  intros. by apply harvest_table_Some.
Qed.

Lemma harvest_database_stops (db : string) (response : GetTablesResponse)
    (tables : list Table) (acc : string) (st : Session World) (w : World) :
  get_tables env db (world st) = (Return response, w) ->
  TableList response = Some tables ->
  mapM table_entries tables = None ->
  exists e, harvest_database env db acc st =
    (Raise e, mkSession (glue_catalog st) (effects st) w).
Proof.
  intros Hg Htl Hm. unfold harvest_database.
  unfold mbind at 1, M_bind at 1, call. rewrite Hg.
  unfold mbind at 1, M_bind at 1. rewrite Htl. cbn [subscript mret M_ret].
  apply (for_in_lines_stops _ table_entries); [| |exact Hm].
  - intros. by apply harvest_table_Some.
  - intros x acc' st' Hx. destruct (harvest_table_None x acc' st' Hx) as [key ->].
    by eexists.
Qed.

Lemma for_in_databases_inv (dbs : list string) (acc s : string)
    (st st' : Session World) :
  for_in dbs (harvest_database env) acc st = (Return s, st') ->
  exists tables entries,
    discovered_tables env dbs (world st) = Some (tables, world st')
    /\ mapM table_entries tables = Some entries
    /\ s = acc +:+ catalog_lines (concat entries)
    /\ glue_catalog st' = glue_catalog st
    /\ effects st' = effects st.
Proof.
  revert acc st. induction dbs as [|db dbs IH]; intros acc st H.
  - cbn in H. injection H as <- <-. exists [], []. cbn.
    by rewrite str_app_nil_r.
  - cbn [for_in] in H. unfold mbind, M_bind in H.
    destruct (get_tables env db (world st)) as [[response|e] w] eqn:Hg.
    + destruct (TableList response) as [tables|] eqn:Htl.
      * destruct (mapM table_entries tables) as [es|] eqn:Hm.
        -- rewrite (harvest_database_returns _ _ _ _ _ _ _ Hg Htl Hm) in H.
           apply IH in H as (tables' & entries' & Hd & Hm' & -> & Hgc & Heff).
           cbn in Hd, Hgc, Heff.
           exists (tables ++ tables'), (es ++ entries').
           cbn [discovered_tables]. rewrite Hg, Htl. cbn. rewrite Hd. cbn.
           split; [done|]. split.
           { apply mapM_Some, Forall2_app; by apply mapM_Some. }
           by rewrite concat_app, catalog_lines_app, str_app_assoc.
        -- destruct (harvest_database_stops _ _ _ acc _ _ Hg Htl Hm) as [e He].
           by rewrite He in H.
      * unfold harvest_database, mbind, M_bind, call in H.
        rewrite Hg, Htl in H. done.
    + unfold harvest_database, mbind, M_bind, call in H. rewrite Hg in H. done.
Qed.

(** X1: whenever [parse_catalog] returns, every table the metadata source
    handed over carried the keys the harvester reads, and the string is the
    header followed by the lines of their triples; nothing was printed and
    [glue_catalog] is as before. *)
Theorem parse_catalog_return_inv (st st' : Session World) (s : string) :
  parse_catalog env st = (Return s, st') ->
  exists tables entries,
    discovered_tables env (gdc env) (world st) = Some (tables, world st')
    /\ mapM table_entries tables = Some entries
    /\ s = catalog_string (concat entries)
    /\ glue_catalog st' = glue_catalog st
    /\ effects st' = effects st.
Proof.
  rewrite parse_catalog_unfold, bind_mret. apply for_in_databases_inv.
Qed.

(** X2: when the metadata source raises for a database, after the
    databases before it were harvested, [parse_catalog] ends in that
    exception: the lines gathered so far are lost and no string is
    returned. *)
Theorem parse_catalog_source_fails (st : Session World) (before after : list string)
    (db : string) (tables : list Table)
    (entries : list (list (string * string * string)))
    (e : PyExc) (w1 w2 : World) :
  gdc env = before ++ db :: after ->
  discovered_tables env before (world st) = Some (tables, w1) ->
  mapM table_entries tables = Some entries ->
  get_tables env db w1 = (Raise e, w2) ->
  parse_catalog env st = (Raise e, mkSession (glue_catalog st) (effects st) w2).
Proof.
  intros Hgdc Hd Hm Hg. rewrite parse_catalog_unfold, bind_mret, Hgdc, for_in_app.
  unfold mbind, M_bind.
  erewrite (for_in_databases env); [| |exact Hd|exact Hm].
  - cbn [for_in]. unfold harvest_database, mbind, M_bind, call. cbn [world].
    by rewrite Hg.
  - intros. by eapply harvest_database_returns.
Qed.

(** X3: a table whose storage location does not start with "s3" and whose
    parameters hold no "classification" makes [parse_catalog] end in
    KeyError for that key, although the classification never reaches the
    catalog string; the tables listed before it do not help. *)
Theorem parse_catalog_unclassified (st : Session World) (before after : list string)
    (db : string) (tables : list Table)
    (entries : list (list (string * string * string)))
    (response : GetTablesResponse) (good rest : list Table) (bad : Table)
    (good_entries : list (list (string * string * string)))
    (sd : StorageDescriptor) (location : string) (parameters : gmap string string)
    (w1 w2 : World) :
  gdc env = before ++ db :: after ->
  discovered_tables env before (world st) = Some (tables, w1) ->
  mapM table_entries tables = Some entries ->
  get_tables env db w1 = (Return response, w2) ->
  TableList response = Some (good ++ bad :: rest) ->
  mapM table_entries good = Some good_entries ->
  tbl_StorageDescriptor bad = Some sd ->
  sd_Location sd = Some location ->
  startswith location "s3" = false ->
  tbl_Parameters bad = Some parameters ->
  parameters !! "classification" = None ->
  parse_catalog env st =
    (Raise (KeyError "classification"), mkSession (glue_catalog st) (effects st) w2).
Proof.
  intros Hgdc Hd Hm Hg Htl Hgood Hsd Hloc Hs3 Hps Hcl.
  rewrite parse_catalog_unfold, bind_mret, Hgdc, for_in_app.
  unfold mbind, M_bind.
  erewrite (for_in_databases env); [| |exact Hd|exact Hm].
  - cbn [for_in]. unfold mbind at 1, M_bind at 1.
    unfold harvest_database. unfold mbind at 1, M_bind at 1, call. cbn [world].
    rewrite Hg. unfold mbind at 1, M_bind at 1. rewrite Htl.
    cbn [subscript mret M_ret]. rewrite for_in_app. unfold mbind at 1, M_bind at 1.
    erewrite (for_in_lines _ table_entries); [| |exact Hgood].
    + cbn [for_in]. unfold mbind at 1, M_bind at 1.
      unfold harvest_table, mbind, M_bind. rewrite Hsd. cbn. rewrite Hloc. cbn.
      rewrite Hs3, Hps. cbn. by rewrite Hcl.
    + intros. by apply harvest_table_Some.
  - intros. by eapply harvest_database_returns.
Qed.
End HarvesterOutcomes.

(** ** What the harvester leaves untouched *)

Section Silence.
Context {World DbHandle : Type}.

Lemma silent_ret {A : Type} (a : A) : silent (mret a : M World A).
Proof. done. Qed.

Lemma silent_raise {A : Type} (e : PyExc) : silent (raise e : M World A).
Proof. done. Qed.

Lemma silent_call {A : Type} (f : World -> Result A * World) : silent (call f).
Proof. intros st. unfold call. by destruct (f (world st)). Qed.

Lemma silent_subscript {A : Type} (key : string) (entry : option A) :
  silent (subscript key entry : M World A).
Proof. by destruct entry. Qed.

Lemma silent_bind {A B : Type} (m : M World A) (k : A -> M World B) :
  silent m -> (forall a, silent (k a)) -> silent (m ≫= k).
Proof.
  intros Hm Hk st. unfold mbind, M_bind. specialize (Hm st).
  destruct (m st) as [[a|e] st']; [|done]. cbn in Hm. destruct Hm as [<- <-].
  apply Hk.
Qed.

Lemma silent_for_in {A Acc : Type} (items : list A) (body : A -> Acc -> M World Acc)
    (acc : Acc) :
  (forall x acc', silent (body x acc')) -> silent (for_in items body acc).
Proof.
  intros Hbody. revert acc. induction items as [|x items IH]; intros acc; [done|].
  cbn [for_in]. apply silent_bind; [apply Hbody | apply IH].
Qed.

Lemma silent_harvest_table (t : Table) (acc : string) :
  silent (harvest_table t acc : M World string).
Proof.
  unfold harvest_table.
  repeat first
    [ apply silent_bind; [|intros ?]
    | apply silent_for_in; intros ? ?
    | apply silent_subscript
    | apply silent_ret
    | match goal with |- silent (if ?b then _ else _) => destruct b end ].
Qed.

Lemma parse_catalog_is_silent (env : Env World DbHandle) : silent (parse_catalog env).
Proof.
  rewrite parse_catalog_unfold.
  apply silent_bind; [|intros ?; apply silent_ret].
  apply silent_for_in. intros db acc. unfold harvest_database.
  apply silent_bind; [apply silent_call|]. intros response.
  apply silent_bind; [apply silent_subscript|]. intros table_list.
  apply silent_for_in. intros t acc'. apply silent_harvest_table.
Qed.








(** X5: code cell 9.  When the harvester returns, the cell binds
    [glue_catalog] to the string and prints that string, once; when the
    harvester raises, the cell ends in the same exception, prints nothing
    and leaves [glue_catalog] as it was, so that in a session where it was
    unbound every later question ends in NameError. *)
Theorem cell_9_outcome (env : Env World DbHandle) (st : Session World) :
  (forall value st1,
     parse_catalog env st = (Return value, st1) ->
     cell_9 env st =
       (Return (), mkSession (Some value) (effects st ++ [Print value]) (world st1)))
  /\ (forall e st1,
        parse_catalog env st = (Raise e, st1) ->
        cell_9 env st = (Raise e, st1)
        /\ effects st1 = effects st
        /\ glue_catalog st1 = glue_catalog st
        /\ (glue_catalog st = None ->
            forall query,
              run_query env query st1 = (Raise (NameError "glue_catalog"), st1))).
Proof.
  pose proof (parse_catalog_is_silent env st) as [Heff Hgc].
  split.
  - intros value st1 H. rewrite H in Heff, Hgc. cbn in Heff, Hgc.
    unfold cell_9, mbind, M_bind. rewrite H. cbn. by rewrite Heff.
  - intros e st1 H. rewrite H in Heff, Hgc. cbn in Heff, Hgc.
    split; [|split; [done|split; [done|]]].
    + unfold cell_9, mbind, M_bind. by rewrite H.
    + intros Hnone query. rewrite <- Hgc in Hnone.
      by rewrite run_query_eq, identify_channel_unbound_catalog.
Qed.
End Silence.

(** ** Questions that do not reach the warehouse *)

Section Questions.
Context {World DbHandle : Type}.
Variable env : Env World DbHandle.

(** X6: on a completion that names "api" and not "s3", [run_query] ends in
    the router's UnboundLocalError for [db], after the router's line was
    printed; it does not get as far as its own test of the channel, and
    the text-to-SQL chain is not run. *)
Theorem run_query_api_route (query catalog generated_texts : string)
    (st : Session World) (w : World) :
  glue_catalog st = Some catalog ->
  LLMChain_run env (prompt_template_titan catalog) query (world st)
    = (Return generated_texts, w) ->
  ~ Substring "s3" generated_texts ->
  Substring "api" generated_texts ->
  run_query env query st =
    (Raise (UnboundLocalError "db"),
     mkSession (Some catalog) (effects st ++ [Print "SET database to weather api"]) w).
Proof.
  intros Hcat Hllm Hs3 Hapi.
  rewrite <- str_in_spec in Hs3, Hapi. apply not_true_is_false in Hs3.
  by rewrite run_query_eq, (identify_channel_eq _ _ _ _ Hcat), Hllm, Hs3, Hapi.
Qed.

(** X7: [run_query] fails before anything is printed when the catalog has
    not been built (NameError, the model is not called) and when the model
    call raises (that exception, the chain is not run). *)
Theorem run_query_fails_early (query : string) (st : Session World) :
  (glue_catalog st = None ->
   run_query env query st = (Raise (NameError "glue_catalog"), st))
  /\ (forall catalog e w,
        glue_catalog st = Some catalog ->
        LLMChain_run env (prompt_template_titan catalog) query (world st)
          = (Raise e, w) ->
        run_query env query st =
          (Raise e, mkSession (Some catalog) (effects st) w)).
Proof.
  split.
  - intros H. by rewrite run_query_eq, identify_channel_unbound_catalog.
  - intros catalog e w Hcat Hllm.
    by rewrite run_query_eq, (identify_channel_eq _ _ _ _ Hcat), Hllm.
Qed.

(** X8: a question cell whose completion names "s3" and whose chain
    answers prints the router's line, then what the verbose chain prints,
    then the rule and one line holding the question and the answer, in
    that order; the model is called before the chain. *)
Theorem ask_answers (query catalog generated_texts response : string)
    (printed : list string) (st : Session World) (w1 w2 : World) :
  glue_catalog st = Some catalog ->
  LLMChain_run env (prompt_template_titan catalog) query (world st)
    = (Return generated_texts, w1) ->
  Substring "s3" generated_texts ->
  SQLDatabaseChain_run env (dbathena env) _DEFAULT_TEMPLATE query w1
    = (Return response, printed, w2) ->
  ask env query st =
    (Return (),
     mkSession (Some catalog)
       (effects st ++
          [Print "SET database to athena"] ++
          map Print printed ++
          [Print "----------------------------------------------------------------------";
           Print ("SQL and response from user query " +:+ query +:+ "  " +:+ nl
                  +:+ "  " +:+ response)])
       w2).
Proof.
  intros Hcat Hllm Hs3 Hchain. apply str_in_spec in Hs3.
  unfold ask. unfold mbind at 1, M_bind at 1.
  rewrite run_query_eq, (identify_channel_eq _ _ _ _ Hcat), Hllm, Hs3.
  rewrite run_query_dispatch_db. unfold call_verbose. cbn [world]. rewrite Hchain.
  unfold mbind, M_bind, print. cbn. by rewrite <- !app_assoc.
Qed.

(** X9: when the chain raises, the question cell ends in that exception
    having printed the router's line and what the verbose chain printed
    before it raised: no rule and no answer line follow. *)
Theorem ask_chain_fails (query catalog generated_texts : string) (e : PyExc)
    (printed : list string) (st : Session World) (w1 w2 : World) :
  glue_catalog st = Some catalog ->
  LLMChain_run env (prompt_template_titan catalog) query (world st)
    = (Return generated_texts, w1) ->
  Substring "s3" generated_texts ->
  SQLDatabaseChain_run env (dbathena env) _DEFAULT_TEMPLATE query w1
    = (Raise e, printed, w2) ->
  ask env query st =
    (Raise e,
     mkSession (Some catalog)
       (effects st ++ [Print "SET database to athena"] ++ map Print printed) w2).
Proof.
  intros Hcat Hllm Hs3 Hchain. apply str_in_spec in Hs3.
  unfold ask. unfold mbind at 1, M_bind at 1.
  rewrite run_query_eq, (identify_channel_eq _ _ _ _ Hcat), Hllm, Hs3.
  rewrite run_query_dispatch_db. unfold call_verbose. cbn [world]. rewrite Hchain.
  cbn. by rewrite <- !app_assoc.
Qed.
End Questions.

(** ** The crawler cell, end to end *)

Section CrawlerRuns.
Context {World DbHandle : Type}.
Variable env : Env World DbHandle.

Lemma polled_state_at_poll (k : nat) (w : World) :
  polled_state env k w = crawler_status env (world_at_poll env k w).
Proof.
  revert w. induction k as [|k IH]; intros w; [done|]. apply IH.
Qed.

Lemma slept_app (a b : list Effect) : slept (a ++ b) = slept a + slept b.
Proof.
  induction a as [|[line|seconds] a IH]; cbn; [done|done|]. rewrite IH. lia.
Qed.

Lemma slept_waiting (k : nat) (w : World) :
  (forall j, j < k -> is_Some (polled_state env j w)) ->
  slept (waiting_effects env k w) = 10 * k.
Proof.
  revert w. induction k as [|k IH]; intros w H; [done|].
  cbn [waiting_effects]. destruct (H 0) as [status Hstatus]; [lia|].
  cbn in Hstatus. rewrite Hstatus. cbn [slept]. rewrite IH; [lia|].
  intros j Hj. apply (H (S j)). lia.
Qed.

(** X10: a crawler that starts and first reports STOPPING at poll [k] makes
    the cell end normally, for every budget above [k]: it has printed the
    two opening lines, one status line per poll with a 10 second sleep
    after each but the last, and no error line. *)
Theorem cell_7_finishes (st : Session World) (k fuel : nat) (w1 : World) :
  start_crawler env (glue_crawler_name env) (world st) = (Return (), w1) ->
  (forall j, j < k ->
     exists status, polled_state env j w1 = Some status /\ status <> "STOPPING") ->
  polled_state env k w1 = Some "STOPPING" ->
  k < fuel ->
  cell_7 env fuel st =
    (Finished (Return ()),
     mkSession (glue_catalog st)
       (effects st ++
          [Print ("About to start running the crawler: " +:+ " " +:+ glue_crawler_name env);
           Print "Successfully started crawler. The crawler may take 2-5 mins to detect the schema."]
          ++ waiting_effects env k w1
          ++ [Print (status_line env "STOPPING")])
       (get_crawler env (glue_crawler_name env) (world_at_poll env k w1)).2).
Proof.
  intros Hstart Hwait Hstop Hfuel.
  unfold cell_7, run_bind, lift, crawler_try, run_try_except, crawler_try_suite,
    run_bind, lift, mbind, M_bind, call.
  cbn. rewrite Hstart. cbn.
  replace fuel with (k + S (fuel - S k)) by lia.
  rewrite crawler_loop_waiting by done.
  cbn [crawler_loop]. rewrite poll_crawler_stopping.
  - cbn. by rewrite <- !app_assoc.
  - cbn [world]. by rewrite <- polled_state_at_poll.
Qed.

(** X11: when a poll raises after the crawler was started, the cell still
    ends normally and its output reads "Successfully started crawler ..."
    followed, after the status lines, by "error in starting crawler ...". *)
Theorem cell_7_poll_fails (st : Session World) (k fuel : nat) (e : PyExc)
    (w1 w2 : World) :
  start_crawler env (glue_crawler_name env) (world st) = (Return (), w1) ->
  (forall j, j < k ->
     exists status, polled_state env j w1 = Some status /\ status <> "STOPPING") ->
  get_crawler env (glue_crawler_name env) (world_at_poll env k w1) = (Raise e, w2) ->
  k < fuel ->
  cell_7 env fuel st =
    (Finished (Return ()),
     mkSession (glue_catalog st)
       (effects st ++
          [Print ("About to start running the crawler: " +:+ " " +:+ glue_crawler_name env);
           Print "Successfully started crawler. The crawler may take 2-5 mins to detect the schema."]
          ++ waiting_effects env k w1
          ++ [Print "error in starting crawler. Check the logs for the error details."])
       w2).
Proof.
  intros Hstart Hwait Hraise Hfuel.
  unfold cell_7, run_bind, lift, crawler_try, run_try_except, crawler_try_suite,
    run_bind, lift, mbind, M_bind, call.
  cbn. rewrite Hstart. cbn.
  rewrite (crawler_loop_poll_raises env k fuel _ e w2); [|done..].
  cbn. by rewrite <- !app_assoc.
Qed.

(** X12: the time spent waiting.  A loop that leaves by [break] does so at
    the first poll [k] that reports STOPPING, after [k] polls that kept it
    waiting; it has then slept exactly 10 k seconds, and the last thing it
    did was print the STOPPING line.  While no poll reports STOPPING, a run
    of [fuel] iterations has slept 10 fuel seconds. *)
Theorem crawler_loop_slept (st : Session World) :
  (forall fuel st',
     crawler_loop env fuel st = (Finished (Return ()), st') ->
     exists k, k < fuel
       /\ polled_state env k (world st) = Some "STOPPING"
       /\ (forall j, j < k ->
             exists status, polled_state env j (world st) = Some status
                            /\ status <> "STOPPING")
       /\ slept (effects st') = slept (effects st) + 10 * k
       /\ last (effects st') = Some (Print (status_line env "STOPPING")))
  /\ ((forall k, exists status,
         polled_state env k (world st) = Some status /\ status <> "STOPPING") ->
      forall fuel,
        slept (effects (crawler_loop env fuel st).2) = slept (effects st) + 10 * fuel).
Proof.
  split.
  - intros fuel st' H.
    apply crawler_loop_break_inv in H as (k & Hk & Hstop & Hwait & ->).
    exists k. split; [done|]. split; [done|]. split; [done|]. split.
    + rewrite !slept_app, slept_waiting; [cbn; lia|].
      intros j Hj. destruct (Hwait j Hj) as (status & -> & _). by eexists.
    + by rewrite app_assoc, last_snoc.
  - intros Hwait fuel.
    rewrite <- (Nat.add_0_r fuel) at 1.
    rewrite crawler_loop_waiting by done. cbn.
    rewrite slept_app, slept_waiting; [done|].
    intros j _. destruct (Hwait j) as (status & -> & _). by eexists.
Qed.

(** X13: run from the top, the notebook does not get past code cell 7 while
    the crawler it started reports anything but STOPPING: after any number
    of polls the run is still in that cell, and [glue_catalog] is as it
    was, so no catalog is built and no question is asked. *)
Theorem notebook_waits_for_crawler (st : Session World) (w1 : World)
    (rest : list CodeCell) (fuel : nat) :
  start_crawler env (glue_crawler_name env) (world st) = (Return (), w1) ->
  (forall k, exists status,
     polled_state env k w1 = Some status /\ status <> "STOPPING") ->
  run_cells env fuel (Cell7 :: rest) st =
    (StillRunning,
     mkSession (glue_catalog st)
       (effects st ++
          [Print ("About to start running the crawler: " +:+ " " +:+ glue_crawler_name env);
           Print "Successfully started crawler. The crawler may take 2-5 mins to detect the schema."]
          ++ waiting_effects env fuel w1)
       (world_at_poll env fuel w1)).
Proof.
  intros Hstart Hwait. cbn [run_cells exec_cell].
  unfold run_bind at 1.
  unfold cell_7, run_bind, lift, crawler_try, run_try_except, crawler_try_suite,
    run_bind, lift, mbind, M_bind, call.
  cbn. rewrite Hstart. cbn.
  rewrite <- (Nat.add_0_r fuel) at 1.
  rewrite crawler_loop_waiting by done.
  cbn. by rewrite <- !app_assoc.
Qed.
End CrawlerRuns.

(** ** The outputs of the stack *)

Section StackOutputs.
Variable describe_stacks : string -> Outcome DescribeStacksResponse.

Lemma collect_outputs_inv (output_list : list StackOutput)
    (outputs0 outputs1 : gmap string string) :
  for_each output_list (fun output outputs =>
    value ← item "OutputValue" (OutputValue output);
    key ← item "OutputKey" (OutputKey output);
    mret (<[key := value]> outputs)) outputs0 = Ok outputs1 ->
  forall key,
    outputs1 !! key =
      match last_output key output_list with
      | Some value => Some value
      | None => outputs0 !! key
      end.
Proof.
  revert outputs0. induction output_list as [|output rest IH]; intros outputs0 H key.
  - cbn in H. by injection H as <-.
  - cbn [for_each] in H.
    destruct (OutputValue output) as [v|] eqn:Hv; [|done].
    destruct (OutputKey output) as [k|] eqn:Hk; [|done].
    cbn in H. rewrite (IH _ H key). cbn [last_output].
    destruct (last_output key rest) as [value|]; [done|].
    rewrite Hk, Hv. destruct (decide (Some k = Some key)) as [[= ->]|Hne].
    + by rewrite lookup_insert_eq.
    + rewrite lookup_insert_ne; [done|]. congruence.
Qed.

Lemma collect_outputs_returns (output_list : list StackOutput)
    (outputs0 : gmap string string) :
  Forall complete_output output_list ->
  exists outputs,
    for_each output_list (fun output outputs =>
      value ← item "OutputValue" (OutputValue output);
      key ← item "OutputKey" (OutputKey output);
      mret (<[key := value]> outputs)) outputs0 = Ok outputs.
Proof.
  intros H. revert outputs0.
  induction H as [|output rest [[k Hk] [v Hv]] _ IH]; intros outputs0.
  - by exists outputs0.
  - cbn [for_each]. rewrite Hk, Hv. cbn. apply IH.
Qed.

Lemma collect_outputs_stops (good rest : list StackOutput) (bad : StackOutput)
    (outputs0 : gmap string string) :
  Forall complete_output good ->
  OutputValue bad = None ->
  for_each (good ++ bad :: rest) (fun output outputs =>
    value ← item "OutputValue" (OutputValue output);
    key ← item "OutputKey" (OutputKey output);
    mret (<[key := value]> outputs)) outputs0
  = Err (Raised (KeyError "OutputValue")).
Proof.
  intros H Hbad. revert outputs0.
  induction H as [|output good [[k Hk] [v Hv]] _ IH]; intros outputs0.
  - cbn. by rewrite Hbad.
  - cbn [app for_each]. rewrite Hk, Hv. cbn. apply IH.
Qed.

(** X14: when the first stack of the response lists outputs that all carry
    a key and a value, [get_cfn_outputs] returns a dict in which every key
    has the value of the last output listed under it (a key listed twice
    keeps the later value) and no other key is bound; stacks after the
    first are not read. *)
Theorem get_cfn_outputs_last_wins (name : string) (response : DescribeStacksResponse)
    (stack : Stack) (others : list Stack) (output_list : list StackOutput) :
  describe_stacks name = Ok response ->
  Stacks response = Some (stack :: others) ->
  Outputs stack = Some output_list ->
  Forall complete_output output_list ->
  exists outputs,
    get_cfn_outputs describe_stacks name = Ok outputs
    /\ forall key, outputs !! key = last_output key output_list.
Proof.
  intros Hds Hstacks Houtputs Hall. unfold get_cfn_outputs.
  rewrite Hds. cbn. rewrite Hstacks. cbn. rewrite Houtputs. cbn.
  destruct (collect_outputs_returns output_list ∅ Hall) as (outputs & Hloop).
  exists outputs. unfold mbind, Outcome_bind in *. rewrite Hloop.
  split; [done|]. intros key. rewrite (collect_outputs_inv _ _ _ Hloop).
  by destruct (last_output key output_list).
Qed.

(** X15: how [get_cfn_outputs] fails on what the service answers: an empty
    list of stacks is IndexError; a first stack without outputs is KeyError
    for "Outputs"; an output without a value is KeyError for "OutputValue",
    also when its key is missing too, because the value is read first. *)
Theorem get_cfn_outputs_errors (name : string) (response : DescribeStacksResponse) :
  describe_stacks name = Ok response ->
  (Stacks response = Some [] ->
   get_cfn_outputs describe_stacks name = Err (IndexError "list index out of range"))
  /\ (forall stack others,
        Stacks response = Some (stack :: others) ->
        Outputs stack = None ->
        get_cfn_outputs describe_stacks name = Err (Raised (KeyError "Outputs")))
  /\ (forall stack others good bad rest,
        Stacks response = Some (stack :: others) ->
        Outputs stack = Some (good ++ bad :: rest) ->
        Forall complete_output good ->
        OutputValue bad = None ->
        get_cfn_outputs describe_stacks name = Err (Raised (KeyError "OutputValue"))).
Proof.
  intros Hds. unfold get_cfn_outputs. rewrite Hds. cbn. split; [|split].
  - by intros ->.
  - intros stack others -> Houtputs. cbn. by rewrite Houtputs.
  - intros stack others good bad rest -> Houtputs Hgood Hbad. cbn.
    rewrite Houtputs. cbn. unfold mbind at 1, Outcome_bind at 1.
    by rewrite (collect_outputs_stops good rest bad ∅ Hgood Hbad).
Qed.

(** X16: code cell 5 on the dict code cell 4 built: the three names are the
    values of the last outputs listed under "LibraryDatabaseName",
    "LibraryCrawlerName" and "LabfilesBucketName"; when the stack lists no
    output under one of them the cell ends in KeyError for the first one
    missing, in that order. *)
Theorem setup_names (name : string) (response : DescribeStacksResponse)
    (stack : Stack) (others : list Stack) (output_list : list StackOutput)
    (outputs : gmap string string) :
  describe_stacks name = Ok response ->
  Stacks response = Some (stack :: others) ->
  Outputs stack = Some output_list ->
  get_cfn_outputs describe_stacks name = Ok outputs ->
  (forall glue_db_name glue_crawler_name lab_files_bucket,
     cell_5 outputs = Ok (glue_db_name, glue_crawler_name, lab_files_bucket) <->
     last_output "LibraryDatabaseName" output_list = Some glue_db_name
     /\ last_output "LibraryCrawlerName" output_list = Some glue_crawler_name
     /\ last_output "LabfilesBucketName" output_list = Some lab_files_bucket)
  /\ (last_output "LibraryDatabaseName" output_list = None ->
      cell_5 outputs = Err (Raised (KeyError "LibraryDatabaseName")))
  /\ (is_Some (last_output "LibraryDatabaseName" output_list) ->
      last_output "LibraryCrawlerName" output_list = None ->
      cell_5 outputs = Err (Raised (KeyError "LibraryCrawlerName")))
  /\ (is_Some (last_output "LibraryDatabaseName" output_list) ->
      is_Some (last_output "LibraryCrawlerName" output_list) ->
      last_output "LabfilesBucketName" output_list = None ->
      cell_5 outputs = Err (Raised (KeyError "LabfilesBucketName"))).
Proof.
  intros Hds Hstacks Houtputs Hget.
  assert (Hlookup : forall key, outputs !! key = last_output key output_list).
  { unfold get_cfn_outputs in Hget. rewrite Hds in Hget. cbn in Hget.
    rewrite Hstacks in Hget. cbn in Hget. rewrite Houtputs in Hget. cbn in Hget.
    unfold mbind at 1, Outcome_bind at 1 in Hget.
    intros key.
    destruct (for_each output_list _ ∅) as [outputs1|e] eqn:Hloop; [|done].
    cbn in Hget. injection Hget as <-. rewrite (collect_outputs_inv _ _ _ Hloop key).
    by destruct (last_output key output_list). }
  unfold cell_5. rewrite !Hlookup.
  split; [|split; [|split]].
  - intros d c b.
    destruct (last_output "LibraryDatabaseName" output_list) as [d'|];
      [|cbn; split; [done|by intros [? _]]].
    destruct (last_output "LibraryCrawlerName" output_list) as [c'|];
      [|cbn; split; [done|by intros (_ & ? & _)]].
    destruct (last_output "LabfilesBucketName" output_list) as [b'|];
      [|cbn; split; [done|by intros (_ & _ & ?)]].
    cbn. split; [by intros [= -> -> ->] | by intros ([= ->] & [= ->] & [= ->])].
  - by intros ->.
  - intros [d ->] ->. done.
  - intros [d ->] [c ->] ->. done.
Qed.
End StackOutputs.

(** ** Adding the prompt text to a record *)

Section AddTextProperties.
Variable PROMPT_format : string -> string -> Outcome string.
Variable rec_repr : gmap string PyVal -> string.

Lemma truthy_PyStr (v : PyVal) :
  truthy v = true -> exists s, v = PyStr s /\ s <> "".
Proof.
  destruct v as [|s]; [done|]. cbn. intros H. exists s. split; [done|].
  intros ->. done.
Qed.

Lemma add_text_inv (rec rec' : gmap string PyVal) :
  _add_text PROMPT_format rec_repr rec = Ok rec' ->
  exists instruction response text,
    rec !! "instruction" = Some (PyStr instruction) /\ instruction <> ""
    /\ rec !! "response" = Some (PyStr response) /\ response <> ""
    /\ PROMPT_format instruction response = Ok text
    /\ rec' = <["text" := PyStr text]> rec.
Proof.
  unfold _add_text. intros H.
  destruct (rec !! "instruction") as [vi|] eqn:Hi; [|done].
  destruct (rec !! "response") as [vr|] eqn:Hr; [|done].
  cbn in H.
  destruct (truthy vi) eqn:Hti; [|done].
  destruct (truthy vr) eqn:Htr; [|done].
  cbn in H.
  destruct (truthy_PyStr _ Hti) as (instruction & -> & Hine).
  destruct (truthy_PyStr _ Htr) as (response & -> & Hrne).
  cbn in H.
  destruct (PROMPT_format instruction response) as [text|e] eqn:Hf; [|done].
  cbn in H. injection H as <-.
  by exists instruction, response, text.
Qed.

(** X17: whenever [_add_text] returns, the record had a non-empty string
    under "instruction" and under "response", the record returned is the
    one passed with "text" bound to the formatted prompt, and every other
    field is as it was. *)
Theorem add_text_returns_inv (rec rec' : gmap string PyVal) :
  _add_text PROMPT_format rec_repr rec = Ok rec' ->
  exists instruction response text,
    rec !! "instruction" = Some (PyStr instruction) /\ instruction <> ""
    /\ rec !! "response" = Some (PyStr response) /\ response <> ""
    /\ PROMPT_format instruction response = Ok text
    /\ rec' !! "text" = Some (PyStr text)
    /\ forall key, key <> "text" -> rec' !! key = rec !! key.
Proof.
  intros H.
  destruct (add_text_inv _ _ H)
    as (instruction & response & text & Hi & Hine & Hr & Hrne & Hf & ->).
  exists instruction, response, text.
  repeat split; try done.
  - by rewrite lookup_insert_eq.
  - intros key Hkey. by rewrite lookup_insert_ne.
Qed.

(** X18: the order in which [_add_text] fails.  Both fields are read before
    either is tested, so a record without "response" is KeyError for it
    even when its instruction is empty; with both fields there, an empty
    or missing-valued instruction is reported before an empty response. *)
Theorem add_text_errors (rec : gmap string PyVal) :
  (rec !! "instruction" = None ->
   _add_text PROMPT_format rec_repr rec = Err (Raised (KeyError "instruction")))
  /\ (is_Some (rec !! "instruction") -> rec !! "response" = None ->
      _add_text PROMPT_format rec_repr rec = Err (Raised (KeyError "response")))
  /\ (forall instruction,
        rec !! "instruction" = Some instruction -> truthy instruction = false ->
        is_Some (rec !! "response") ->
        _add_text PROMPT_format rec_repr rec =
          Err (ValueError ("Expected an instruction in: " +:+ rec_repr rec)))
  /\ (forall instruction response,
        rec !! "instruction" = Some instruction -> truthy instruction = true ->
        rec !! "response" = Some response -> truthy response = false ->
        _add_text PROMPT_format rec_repr rec =
          Err (ValueError ("Expected a response in: " +:+ rec_repr rec))).
Proof.
  unfold _add_text. split; [|split; [|split]].
  - by intros ->.
  - by intros [vi ->] ->.
  - intros vi -> Hti [vr ->]. cbn. by rewrite Hti.
  - intros vi vr -> Hti -> Htr. cbn. by rewrite Hti, Htr.
Qed.

(** X19: [_add_text] applied to a record it has returned returns that
    record again: mapping it twice over a dataset changes nothing. *)
Theorem add_text_idempotent (rec rec' : gmap string PyVal) :
  _add_text PROMPT_format rec_repr rec = Ok rec' ->
  _add_text PROMPT_format rec_repr rec' = Ok rec'.
Proof.
  intros H.
  destruct (add_text_inv _ _ H)
    as (instruction & response & text & Hi & Hine & Hr & Hrne & Hf & ->).
  unfold _add_text.
  rewrite !lookup_insert_ne by done. rewrite Hi, Hr. cbn.
  apply String.eqb_neq in Hine, Hrne. rewrite Hine, Hrne. cbn.
  rewrite Hf. cbn. by rewrite insert_insert_eq.
Qed.
End AddTextProperties.

(** ** Taking characters off the ends of a string *)

Lemma lstrip_spec (s chars : string) :
  exists pre, s = pre +:+ lstrip s chars /\ all_in pre chars
    /\ forall c, first_char (lstrip s chars) = Some c -> char_in c chars = false.
Proof.
  induction s as [|a s (pre & Hs & Hpre & Hfirst)].
  - by exists EmptyString.
  - cbn [lstrip]. destruct (char_in a chars) eqn:Ha.
    + exists (String a pre). split; [exact (f_equal (String a) Hs)|].
      split; [by split|done].
    + exists EmptyString. split; [done|]. split; [done|]. by intros c [= <-].
Qed.

Lemma rstrip_spec (s chars : string) :
  exists post, s = rstrip s chars +:+ post /\ all_in post chars
    /\ forall c, last_char (rstrip s chars) = Some c -> char_in c chars = false.
Proof.
  induction s as [|a s (post & Hs & Hpost & Hlast)].
  - by exists EmptyString.
  - cbn [rstrip]. destruct (rstrip s chars) as [|b kept] eqn:Hkept.
    + destruct (char_in a chars) eqn:Ha.
      * exists (String a post). split; [exact (f_equal (String a) Hs)|].
        split; [by split|done].
      * exists post. split; [exact (f_equal (String a) Hs)|]. split; [done|].
        by intros c [= <-].
    + exists post. split; [exact (f_equal (String a) Hs)|]. split; [done|].
      intros c Hc. apply Hlast. exact Hc.
Qed.

Lemma rstrip_first_char (s chars : string) (c : Ascii.ascii) :
  first_char (rstrip s chars) = Some c -> first_char s = Some c.
Proof.
  destruct s as [|a s]; [done|]. cbn [rstrip].
  destruct (rstrip s chars); [destruct (char_in a chars)|]; by cbn.
Qed.

Lemma lstrip_fixed (s chars : string) :
  (forall c, first_char s = Some c -> char_in c chars = false) ->
  lstrip s chars = s.
Proof.
  destruct s as [|a s]; [done|]. intros H. cbn. by rewrite (H a).
Qed.

Lemma rstrip_keeps (p rest chars : string) (c : Ascii.ascii) :
  last_char p = Some c -> char_in c chars = false ->
  rstrip (p +:+ rest) chars = p +:+ rstrip rest chars.
Proof.
  induction p as [|a p IH]; [done|]. intros Hlast Hc.
  change (String a p +:+ rest) with (String a (p +:+ rest)). cbn [rstrip].
  destruct p as [|b p].
  - cbn in Hlast. injection Hlast as ->.
    change (EmptyString +:+ rest) with rest.
    destruct (rstrip rest chars); [by rewrite Hc|done].
  - rewrite IH by done. done.
Qed.

Lemma rstrip_fixed (s chars : string) :
  (forall c, last_char s = Some c -> char_in c chars = false) ->
  rstrip s chars = s.
Proof.
  intros H. destruct (last_char s) as [c|] eqn:Hlast.
  - rewrite <- (str_app_nil_r s) at 1.
    rewrite (rstrip_keeps s "" chars c Hlast (H c eq_refl)).
    apply str_app_nil_r.
  - destruct s as [|a s]; [done|]. exfalso. clear H. revert a Hlast.
    induction s as [|b s IH]; intros a Hlast; [done|]. by apply (IH b).
Qed.

(** [strip] takes off a run of characters of the set at each end and
    nothing else: the string is the stripped one between two such runs, and
    the stripped string neither starts nor ends with a character of the
    set. *)
Lemma strip_spec (s chars : string) :
  (exists pre post,
     s = pre +:+ strip s chars +:+ post /\ all_in pre chars /\ all_in post chars)
  /\ (forall c, first_char (strip s chars) = Some c -> char_in c chars = false)
  /\ (forall c, last_char (strip s chars) = Some c -> char_in c chars = false).
Proof.
  unfold strip.
  destruct (lstrip_spec s chars) as (pre & Hs & Hpre & Hfirst).
  destruct (rstrip_spec (lstrip s chars) chars) as (post & Hl & Hpost & Hlast).
  split; [|split].
  - exists pre, post. split; [|done]. by rewrite <- Hl.
  - intros c Hc. apply Hfirst. by apply rstrip_first_char in Hc.
  - done.
Qed.

(** A string that neither starts nor ends with a character of the set is
    left as it is, and stripping twice is stripping once. *)
Lemma strip_fixed (s chars : string) :
  ((forall c, first_char s = Some c -> char_in c chars = false) ->
   (forall c, last_char s = Some c -> char_in c chars = false) ->
   strip s chars = s)
  /\ strip (strip s chars) chars = strip s chars.
Proof.
  assert (Hfixed : forall t,
    (forall c, first_char t = Some c -> char_in c chars = false) ->
    (forall c, last_char t = Some c -> char_in c chars = false) ->
    strip t chars = t).
  { intros t Hfirst Hlast. unfold strip. rewrite lstrip_fixed by done.
    by apply rstrip_fixed. }
  split; [apply Hfixed|]. apply Hfixed.
  - intros c Hc. unfold strip in Hc. apply rstrip_first_char in Hc.
    destruct (lstrip_spec s chars) as (_ & _ & _ & Hfirst). by apply Hfirst.
  - destruct (rstrip_spec (lstrip s chars) chars) as (_ & _ & _ & Hlast).
    exact Hlast.
Qed.

(** ** Choosing the bucket and uploading *)

Section Upload.
Variable upload_file : string -> string -> string -> Outcome unit.

Lemma bucket_names_skip (before rest : list Bucket) (acc : list string) :
  Forall (fun bucket => exists name,
            bkt_Name bucket = Some name /\ startswith name "automate" = false) before ->
  for_each (before ++ rest) (fun bucket bucket_names =>
    name ← item "Name" (bkt_Name bucket);
    if startswith name "automate" then
      name ← item "Name" (bkt_Name bucket);
      mret (bucket_names ++ [name])
    else mret bucket_names) acc
  = for_each rest (fun bucket bucket_names =>
    name ← item "Name" (bkt_Name bucket);
    if startswith name "automate" then
      name ← item "Name" (bkt_Name bucket);
      mret (bucket_names ++ [name])
    else mret bucket_names) acc.
Proof.
  intros H. induction H as [|bucket before (name & Hname & Hno) _ IH]; [done|].
  cbn [app for_each]. rewrite Hname. cbn. rewrite Hno. cbn. apply IH.
Qed.

Lemma bucket_names_extend (buckets : list Bucket) (acc : list string) :
  Forall (fun bucket => is_Some (bkt_Name bucket)) buckets ->
  exists more,
    for_each buckets (fun bucket bucket_names =>
      name ← item "Name" (bkt_Name bucket);
      if startswith name "automate" then
        name ← item "Name" (bkt_Name bucket);
        mret (bucket_names ++ [name])
      else mret bucket_names) acc
    = Ok (acc ++ more).
Proof.
  intros H. revert acc. induction H as [|bucket buckets [name Hname] _ IH]; intros acc.
  - exists []. cbn. by rewrite app_nil_r.
  - cbn [for_each]. rewrite Hname. cbn.
    destruct (startswith name "automate").
    + cbn. destruct (IH (acc ++ [name])) as [more ->].
      exists (name :: more). by rewrite <- app_assoc.
    + cbn. apply IH.
Qed.

Lemma bucket_names_nameless (named rest : list Bucket) (bad : Bucket)
    (acc : list string) :
  Forall (fun bucket => is_Some (bkt_Name bucket)) named ->
  bkt_Name bad = None ->
  for_each (named ++ bad :: rest) (fun bucket bucket_names =>
    name ← item "Name" (bkt_Name bucket);
    if startswith name "automate" then
      name ← item "Name" (bkt_Name bucket);
      mret (bucket_names ++ [name])
    else mret bucket_names) acc
  = Err (Raised (KeyError "Name")).
Proof.
  intros H Hbad. revert acc. induction H as [|bucket named [name Hname] _ IH]; intros acc.
  - cbn. by rewrite Hbad.
  - cbn [app for_each]. rewrite Hname. cbn.
    destruct (startswith name "automate"); cbn; apply IH.
Qed.

Lemma strip_automate (name : string) :
  startswith name "automate" = true ->
  String.prefix "automate" (strip name "'[]") = true.
Proof.
  intros H. apply prefix_spec in H as [rest ->]. unfold strip.
  rewrite lstrip_fixed.
  - erewrite (rstrip_keeps "automate" rest "'[]"); [|reflexivity..].
    apply prefix_spec. by eexists.
  - by intros c [= <-].
Qed.

(** X20: the model is uploaded to the first bucket of the listing whose
    name starts with "automate", with the characters ' [ ] taken off the
    ends of the name; the name uploaded to still starts with "automate". *)
Theorem upload_cell_target (bucket_list : ListBucketsResponse)
    (before after : list Bucket) (name : string) :
  Buckets bucket_list = Some (before ++ mkBucket (Some name) :: after) ->
  Forall (fun bucket => exists other,
            bkt_Name bucket = Some other /\ startswith other "automate" = false) before ->
  startswith name "automate" = true ->
  Forall (fun bucket => is_Some (bkt_Name bucket)) after ->
  upload_cell (Ok bucket_list) upload_file =
    upload_file "lora_model.tar.gz" (strip name "'[]") "output/lora_model.tar.gz"
  /\ String.prefix "automate" (strip name "'[]") = true.
Proof.
  intros Hb Hbefore Hname Hafter. split; [|by apply strip_automate].
  unfold upload_cell, automate_bucket_names. cbn. rewrite Hb. cbn.
  rewrite bucket_names_skip by done. cbn [for_each bkt_Name]. cbn.
  rewrite Hname. cbn.
  destruct (bucket_names_extend after [name] Hafter) as [more ->]. done.
Qed.

(** X21: when no bucket of the listing has a name that starts with
    "automate", the cell ends in IndexError and nothing is uploaded,
    whatever the upload would have done. *)
Theorem upload_cell_no_bucket (bucket_list : ListBucketsResponse)
    (buckets : list Bucket) :
  Buckets bucket_list = Some buckets ->
  Forall (fun bucket => exists other,
            bkt_Name bucket = Some other /\ startswith other "automate" = false) buckets ->
  upload_cell (Ok bucket_list) upload_file = Err (IndexError "list index out of range").
Proof.
  intros Hb Hnone. unfold upload_cell, automate_bucket_names. cbn. rewrite Hb. cbn.
  rewrite <- (app_nil_r buckets). by rewrite bucket_names_skip.
Qed.

(** X22: the whole listing is read before a bucket is chosen: a bucket
    without a name makes the cell end in KeyError even when a bucket whose
    name starts with "automate" is listed before it. *)
Theorem upload_cell_nameless_bucket (bucket_list : ListBucketsResponse)
    (named rest : list Bucket) (bad : Bucket) :
  Buckets bucket_list = Some (named ++ bad :: rest) ->
  Forall (fun bucket => is_Some (bkt_Name bucket)) named ->
  bkt_Name bad = None ->
  upload_cell (Ok bucket_list) upload_file = Err (Raised (KeyError "Name")).
Proof.
  intros Hb Hnamed Hbad. unfold upload_cell, automate_bucket_names. cbn.
  rewrite Hb. cbn. by rewrite bucket_names_nameless.
Qed.
End Upload.

(** ** The further properties, on the library session *)

Lemma parse_catalog_return_inv_witness :
  exists tables entries,
    discovered_tables (library_env 30 [s3_library_data] sql_completion)
        (gdc (library_env 30 [s3_library_data] sql_completion)) (world fresh)
      = Some (tables, world (mkSession None [] 1))
    /\ mapM table_entries tables = Some entries
    /\ catalog_string
         [("librarydb", "s3_library_data", "book_id");
          ("librarydb", "s3_library_data", "title");
          ("librarydb", "s3_library_data", "author");
          ("librarydb", "s3_library_data", "genre");
          ("librarydb", "s3_library_data", "pub_date")]
       = catalog_string (concat entries)
    /\ glue_catalog (mkSession None [] 1) = glue_catalog fresh
    /\ effects (mkSession None [] 1) = effects fresh.
Proof.
  apply (parse_catalog_return_inv
           (library_env 30 [s3_library_data] sql_completion) fresh
           (mkSession None [] 1)).
  vm_compute. reflexivity.
Defined.

Lemma parse_catalog_source_fails_witness :
  parse_catalog offline_env fresh
    = (Raise (LibraryError "EndpointConnectionError" "could not connect"),
       mkSession None [] 1).
Proof.
  apply (parse_catalog_source_fails offline_env fresh [] [] "librarydb" [] []
           (LibraryError "EndpointConnectionError" "could not connect") 0 1);
    reflexivity.
Defined.

Lemma parse_catalog_unclassified_witness :
  parse_catalog (library_env 30 [s3_library_data; fantasy_books_view] sql_completion) fresh
    = (Raise (KeyError "classification"), mkSession None [] 1).
Proof.
  apply (parse_catalog_unclassified
           (library_env 30 [s3_library_data; fantasy_books_view] sql_completion)
           fresh [] [] "librarydb" [] []
           (mkGetTablesResponse (Some [s3_library_data; fantasy_books_view]))
           [s3_library_data] [] fantasy_books_view
           [[("librarydb", "s3_library_data", "book_id");
             ("librarydb", "s3_library_data", "title");
             ("librarydb", "s3_library_data", "author");
             ("librarydb", "s3_library_data", "genre");
             ("librarydb", "s3_library_data", "pub_date")]]
           (mkStorageDescriptor (Some "") (Some [mkColumn (Some "title")]))
           "" {[ "presto_view" := "true" ]} 0 1);
    reflexivity.
Defined.

Lemma run_query_api_route_witness :
  run_query (library_env 30 [s3_library_data] api_completion) books_query harvested
    = (Raise (UnboundLocalError "db"),
       mkSession (Some "database|table|column_name")
                 [Print "SET database to weather api"] 1).
Proof.
  apply (run_query_api_route (library_env 30 [s3_library_data] api_completion)
           books_query "database|table|column_name" api_completion harvested 1).
  - reflexivity.
  - reflexivity.
  - intros H. apply str_in_spec in H. vm_compute in H. discriminate H.
  - exists "Call the weather ", " for the forecast.". reflexivity.
Defined.

Lemma run_query_fails_early_witness :
  run_query (library_env 30 [s3_library_data] sql_completion) books_query fresh
    = (Raise (NameError "glue_catalog"), fresh).
Proof.
  apply (proj1 (run_query_fails_early
                  (library_env 30 [s3_library_data] sql_completion)
                  books_query fresh)).
  reflexivity.
Defined.

Lemma ask_answers_witness :
  ask (library_env 30 [s3_library_data] sql_completion) books_query harvested
    = (Return (),
       mkSession (Some "database|table|column_name")
         ([] ++
          [Print "SET database to athena"] ++
          map Print chain_trace ++
          [Print "----------------------------------------------------------------------";
           Print ("SQL and response from user query " +:+ books_query +:+ "  " +:+ nl
                  +:+ "  " +:+ "There are 1000 books in the library.")])
         2).
Proof.
  apply (ask_answers (library_env 30 [s3_library_data] sql_completion)
           books_query "database|table|column_name" sql_completion
           "There are 1000 books in the library." chain_trace harvested 1 2).
  - reflexivity.
  - reflexivity.
  - exists "SELECT COUNT(*) FROM ", "_library_data; -- no api needed". reflexivity.
  - reflexivity.
Defined.

Lemma ask_chain_fails_witness :
  ask offline_env books_query harvested
    = (Raise (LibraryError "OperationalError" "query failed"),
       mkSession (Some "database|table|column_name")
                 ([] ++ [Print "SET database to athena"]
                     ++ map Print ["> Entering new SQLDatabaseChain chain..."]) 2).
Proof.
  apply (ask_chain_fails offline_env books_query "database|table|column_name"
           sql_completion (LibraryError "OperationalError" "query failed")
           ["> Entering new SQLDatabaseChain chain..."] harvested 1 2).
  - reflexivity.
  - reflexivity.
  - exists "SELECT COUNT(*) FROM ", "_library_data; -- no api needed". reflexivity.
  - reflexivity.
Defined.

Lemma cell_7_finishes_witness :
  cell_7 (library_env 30 [s3_library_data] sql_completion) 10 fresh
    = (Finished (Return ()),
       mkSession None
         [Print "About to start running the crawler:  library-crawler";
          Print "Successfully started crawler. The crawler may take 2-5 mins to detect the schema.";
          Print "Crawler 'library-crawler' status: RUNNING"; Sleep 10;
          Print "Crawler 'library-crawler' status: RUNNING"; Sleep 10;
          Print "Crawler 'library-crawler' status: RUNNING"; Sleep 10;
          Print "Crawler 'library-crawler' status: STOPPING"]
         35).
Proof.
  apply (cell_7_finishes (library_env 30 [s3_library_data] sql_completion)
           fresh 3 10 1).
  - reflexivity.
  - intros j Hj. exists "RUNNING". split; [|discriminate].
    destruct j as [|[|[|j]]]; [reflexivity..|lia].
  - reflexivity.
  - lia.
Defined.

Lemma cell_7_poll_fails_witness :
  cell_7 throttled_env 10 fresh
    = (Finished (Return ()),
       mkSession None
         [Print "About to start running the crawler:  library-crawler";
          Print "Successfully started crawler. The crawler may take 2-5 mins to detect the schema.";
          Print "Crawler 'library-crawler' status: RUNNING"; Sleep 10;
          Print "Crawler 'library-crawler' status: RUNNING"; Sleep 10;
          Print "error in starting crawler. Check the logs for the error details."]
         24).
Proof.
  apply (cell_7_poll_fails throttled_env fresh 2 10
           (LibraryError "ThrottlingException" "rate exceeded") 1 24).
  - reflexivity.
  - intros j Hj. exists "RUNNING". split; [|discriminate].
    destruct j as [|[|j]]; [reflexivity..|lia].
  - reflexivity.
  - lia.
Defined.

Lemma crawler_loop_slept_witness :
  (exists k, k < 5
     /\ polled_state (library_env 30 [s3_library_data] sql_completion) k (world fresh)
        = Some "STOPPING"
     /\ (forall j, j < k ->
           exists status,
             polled_state (library_env 30 [s3_library_data] sql_completion) j (world fresh)
               = Some status
             /\ status <> "STOPPING")
     /\ slept
          [Print "Crawler 'library-crawler' status: RUNNING"; Sleep 10;
           Print "Crawler 'library-crawler' status: RUNNING"; Sleep 10;
           Print "Crawler 'library-crawler' status: RUNNING"; Sleep 10;
           Print "Crawler 'library-crawler' status: STOPPING"]
        = slept (effects fresh) + 10 * k
     /\ last
          [Print "Crawler 'library-crawler' status: RUNNING"; Sleep 10;
           Print "Crawler 'library-crawler' status: RUNNING"; Sleep 10;
           Print "Crawler 'library-crawler' status: RUNNING"; Sleep 10;
           Print "Crawler 'library-crawler' status: STOPPING"]
        = Some (Print (status_line (library_env 30 [s3_library_data] sql_completion)
                         "STOPPING")))
  /\ slept (effects (crawler_loop stuck_env 6 fresh).2) = slept (effects fresh) + 10 * 6.
Proof.
  split.
  - apply (proj1 (crawler_loop_slept
                    (library_env 30 [s3_library_data] sql_completion) fresh)
             5
             (mkSession None
                [Print "Crawler 'library-crawler' status: RUNNING"; Sleep 10;
                 Print "Crawler 'library-crawler' status: RUNNING"; Sleep 10;
                 Print "Crawler 'library-crawler' status: RUNNING"; Sleep 10;
                 Print "Crawler 'library-crawler' status: STOPPING"]
                34)).
    reflexivity.
  - apply (proj2 (crawler_loop_slept stuck_env fresh)).
    intros k. exists "RUNNING". split; [apply stuck_env_running | discriminate].
Defined.

Lemma get_cfn_outputs_last_wins_witness :
  exists outputs,
    get_cfn_outputs describe_lab_stack "LabStack" = Ok outputs
    /\ forall key, outputs !! key = last_output key lab_outputs.
Proof.
  apply (get_cfn_outputs_last_wins describe_lab_stack "LabStack"
           (mkDescribeStacksResponse (Some [mkStack (Some lab_outputs); mkStack None]))
           (mkStack (Some lab_outputs)) [mkStack None] lab_outputs).
  - reflexivity.
  - reflexivity.
  - reflexivity.
  - repeat constructor; by eexists.
Defined.

Lemma get_cfn_outputs_errors_witness :
  get_cfn_outputs describe_no_stack "LabStack" = Err (IndexError "list index out of range").
Proof.
  apply (proj1 (get_cfn_outputs_errors describe_no_stack "LabStack"
                  (mkDescribeStacksResponse (Some [])) eq_refl)).
  reflexivity.
Defined.

Lemma setup_names_witness :
  cell_5 (<["LibraryCrawlerName" := "library-crawler"]>
            (<["LabfilesBucketName" := "labfiles"]>
               (<["LibraryDatabaseName" := "librarydb"]>
                  (<["LibraryCrawlerName" := "old-crawler"]> ∅))))
    = Ok ("librarydb", "library-crawler", "labfiles").
Proof.
  apply (proj1 (setup_names describe_lab_stack "LabStack"
                  (mkDescribeStacksResponse (Some [mkStack (Some lab_outputs); mkStack None]))
                  (mkStack (Some lab_outputs)) [mkStack None] lab_outputs
                  _ eq_refl eq_refl eq_refl eq_refl)).
  repeat split; reflexivity.
Defined.

Lemma add_text_returns_inv_witness :
  exists instruction response text,
    faq_record !! "instruction" = Some (PyStr instruction) /\ instruction <> ""
    /\ faq_record !! "response" = Some (PyStr response) /\ response <> ""
    /\ faq_prompt instruction response = Ok text
    /\ (<["text" := PyStr ("### Instruction:" +:+ nl +:+ "What is Amazon SageMaker?"
                           +:+ nl +:+ "### Response:" +:+ nl
                           +:+ "A managed machine learning service.")]> faq_record)
         !! "text" = Some (PyStr text)
    /\ forall key, key <> "text" ->
         (<["text" := PyStr ("### Instruction:" +:+ nl +:+ "What is Amazon SageMaker?"
                             +:+ nl +:+ "### Response:" +:+ nl
                             +:+ "A managed machine learning service.")]> faq_record)
           !! key = faq_record !! key.
Proof.
  apply (add_text_returns_inv faq_prompt faq_repr faq_record).
  vm_compute. reflexivity.
Defined.

Lemma add_text_errors_witness :
  _add_text faq_prompt faq_repr {[ "instruction" := PyStr ""; "response" := PyNone ]}
    = Err (ValueError ("Expected an instruction in: " +:+
             faq_repr {[ "instruction" := PyStr ""; "response" := PyNone ]})).
Proof.
  destruct (add_text_errors faq_prompt faq_repr
              {[ "instruction" := PyStr ""; "response" := PyNone ]})
    as (_ & _ & H & _).
  apply (H (PyStr "")).
  - vm_compute. reflexivity.
  - reflexivity.
  - exists PyNone. vm_compute. reflexivity.
Defined.

Lemma add_text_idempotent_witness :
  _add_text faq_prompt faq_repr
    (<["text" := PyStr ("### Instruction:" +:+ nl +:+ "What is Amazon SageMaker?"
                        +:+ nl +:+ "### Response:" +:+ nl
                        +:+ "A managed machine learning service.")]> faq_record)
  = Ok (<["text" := PyStr ("### Instruction:" +:+ nl +:+ "What is Amazon SageMaker?"
                           +:+ nl +:+ "### Response:" +:+ nl
                           +:+ "A managed machine learning service.")]> faq_record).
Proof.
  apply (add_text_idempotent faq_prompt faq_repr faq_record).
  vm_compute. reflexivity.
Defined.

Lemma upload_cell_target_witness :
  upload_cell (Ok lab_buckets) (fun filename bucket key => Err (ValueError bucket))
    = Err (ValueError (strip "automate-models" "'[]"))
  /\ String.prefix "automate" (strip "automate-models" "'[]") = true.
Proof.
  apply (upload_cell_target (fun filename bucket key => Err (ValueError bucket))
           lab_buckets [mkBucket (Some "labfiles")] [mkBucket (Some "automate-logs")]
           "automate-models").
  - reflexivity.
  - repeat constructor. by exists "labfiles".
  - reflexivity.
  - repeat constructor. by eexists.
Defined.

Lemma upload_cell_no_bucket_witness :
  upload_cell (Ok (mkListBucketsResponse (Some [mkBucket (Some "labfiles")])))
              (fun filename bucket key => Ok ())
    = Err (IndexError "list index out of range").
Proof.
  apply (upload_cell_no_bucket (fun filename bucket key => Ok ())
           (mkListBucketsResponse (Some [mkBucket (Some "labfiles")]))
           [mkBucket (Some "labfiles")]).
  - reflexivity.
  - repeat constructor. by exists "labfiles".
Defined.

Lemma upload_cell_nameless_bucket_witness :
  upload_cell
    (Ok (mkListBucketsResponse (Some [mkBucket (Some "automate-models"); mkBucket None])))
    (fun filename bucket key => Ok ())
    = Err (Raised (KeyError "Name")).
Proof.
  apply (upload_cell_nameless_bucket (fun filename bucket key => Ok ())
           (mkListBucketsResponse (Some [mkBucket (Some "automate-models"); mkBucket None]))
           [mkBucket (Some "automate-models")] [] (mkBucket None)).
  - reflexivity.
  - repeat constructor. by eexists.
  - reflexivity.
Defined.

Lemma cell_9_outcome_witness :
  cell_9 offline_env harvested
    = (Raise (LibraryError "EndpointConnectionError" "could not connect"),
       mkSession (Some "database|table|column_name") [] 1)
  /\ effects (mkSession (World := nat) (Some "database|table|column_name") [] 1)
     = effects harvested
  /\ glue_catalog (mkSession (World := nat) (Some "database|table|column_name") [] 1)
     = glue_catalog harvested
  /\ (glue_catalog harvested = None ->
      forall query,
        run_query offline_env query (mkSession (Some "database|table|column_name") [] 1)
          = (Raise (NameError "glue_catalog"),
             mkSession (Some "database|table|column_name") [] 1)).
Proof.
  apply (proj2 (cell_9_outcome offline_env harvested)
           (LibraryError "EndpointConnectionError" "could not connect")
           (mkSession (Some "database|table|column_name") [] 1)).
  reflexivity.
Defined.

Lemma notebook_waits_for_crawler_witness :
  run_cells stuck_env 2 notebook fresh
    = (StillRunning,
       mkSession None
         ([] ++
          [Print ("About to start running the crawler: " +:+ " " +:+ "library-crawler");
           Print "Successfully started crawler. The crawler may take 2-5 mins to detect the schema."]
          ++ [Print "Crawler 'library-crawler' status: RUNNING"; Sleep 10;
              Print "Crawler 'library-crawler' status: RUNNING"; Sleep 10])
         23).
Proof.
  apply (notebook_waits_for_crawler stuck_env fresh 1 [Cell9; Cell12; CellDIY] 2).
  - reflexivity.
  - intros k. exists "RUNNING". split; [apply stuck_env_running | discriminate].
Defined.
